(** * App Runner custom domain association: a shallow embedding

    Source: internal/service/apprunner/custom_domain_association.go

    The resource handlers [resourceCustomDomainAssociationCreate],
    [resourceCustomDomainAssociationRead] and
    [resourceCustomDomainAssociationDelete] are embedded as state-passing
    functions over the Terraform [ResourceData] and an abstract remote
    world; [flattenCustomDomainCertificateValidationRecords] is a pure
    function.  Go pointers are [option]s, Go [(value, error)] pairs are
    pairs of options, a nil-pointer dereference is the outcome [Panic]. *)

From stdpp Require Import base option list strings gmap.
From Stdlib Require Import Ascii String.

Open Scope string_scope.

(** ** Go runtime pieces the handlers rely on *)

(** [aws.ToString]: the pointee, or the empty string for a nil pointer. *)
Definition ToString (p : option string) : string :=
  match p with
  | Some s => s
  | None => ""
  end.

(** Go's [error] interface, restricted to the dynamic types that can reach
    the handlers: typed API exceptions of the App Runner SDK, plain errors
    ([errors.New], [fmt.Errorf] without a wrapping verb) and wrapped errors. *)
Inductive error : Type :=
| ResourceNotFoundException (message : string)
| InternalServiceErrorException (message : string)
| InvalidRequestException (message : string)
| InvalidStateException (message : string)
| errorString (s : string)
| wrapError (msg : string) (err : error).

(** The [Error()] method. *)
Fixpoint Error (e : error) : string :=
  match e with
  | ResourceNotFoundException m => "ResourceNotFoundException: " +:+ m
  | InternalServiceErrorException m => "InternalServiceErrorException: " +:+ m
  | InvalidRequestException m => "InvalidRequestException: " +:+ m
  | InvalidStateException m => "InvalidStateException: " +:+ m
  | errorString s => s
  | wrapError msg e' => msg +:+ ": " +:+ Error e'
  end.

(** [errs.IsA[*types.ResourceNotFoundException]]: [errors.As] walks the
    chain of wrapped errors; a nil error matches nothing. *)
Fixpoint errorsAs_ResourceNotFoundException (e : error) : bool :=
  match e with
  | ResourceNotFoundException _ => true
  | wrapError _ e' => errorsAs_ResourceNotFoundException e'
  | _ => false
  end.

Definition IsA_ResourceNotFoundException (err : option error) : bool :=
  match err with
  | Some e => errorsAs_ResourceNotFoundException e
  | None => false
  end.

(** ** Diagnostics *)

Module diag.

Inductive Severity : Type := SeverityError | SeverityWarning.

Record Diagnostic : Type := mkDiagnostic {
  severity : Severity;
  Summary : string;
}.

(** A nil [Diagnostics] is the empty list. *)
Definition Diagnostics : Type := list Diagnostic.

(** [diag.Errorf]: the caller passes the already formatted message. *)
Definition Errorf (msg : string) : Diagnostics :=
  [mkDiagnostic SeverityError msg].

(** [diag.FromErr]. *)
Definition FromErr (err : error) : Diagnostics :=
  [mkDiagnostic SeverityError (Error err)].

End diag.

(** ** The identity codec *)

Module IdentityCodec.

(** The separator of the composite identifier, as in the format string
    ["%s,%s"] of [resourceCustomDomainAssociationCreate]. *)
Definition delimiter : ascii := ","%char.

(** [fmt.Sprintf("%s,%s", a, b)]. *)
Definition Encode (domainName serviceArn : string) : string :=
  domainName +:+ String delimiter serviceArn.

(** [strings.Split] on a one-character separator: always at least one
    segment, the separators themselves dropped. *)
Fixpoint Split (sep : ascii) (s : string) : list string :=
  match s with
  | EmptyString => [EmptyString]
  | String c rest =>
      if Ascii.eqb c sep then EmptyString :: Split sep rest
      else match Split sep rest with
           | seg :: segs => String c seg :: segs
           | [] => [String c EmptyString]
           end
  end.

(** [strings.Contains] for a one-character needle. *)
Fixpoint Contains (sep : ascii) (s : string) : bool :=
  match s with
  | EmptyString => false
  | String c rest => Ascii.eqb c sep || Contains sep rest
  end.

Definition nonEmpty (s : string) : bool :=
  match s with
  | EmptyString => false
  | String _ _ => true
  end.

(** The error of a failed decode. *)
Definition MalformedIdentity (id : string) : error :=
  errorString ("unexpected format for ID (" +:+ id +:+
               "), expected domain_name,service_arn").

(** Modelled from the spec: [CustomDomainAssociationParseID] is defined
    in another file of the package.  Decode splits on the delimiter and
    fails with [MalformedIdentity] unless the split yields exactly two
    segments, both of them non-empty; nothing else is validated. *)
Definition Decode (id : string) : (string * string) + error :=
  match Split delimiter id with
  | [a; b] =>
      if nonEmpty a && nonEmpty b then inl (a, b)
      else inr (MalformedIdentity id)
  | _ => inr (MalformedIdentity id)
  end.

End IdentityCodec.

Definition CustomDomainAssociationParseID := IdentityCodec.Decode.

(** ** SDK data types ([apprunner/types] and the request/response structs) *)

Module CertificateValidationRecord.
Record t : Type := mk {
  Name : option string;
  Status : string;
  Type' : option string;
  Value : option string;
}.
End CertificateValidationRecord.

Module CustomDomain.
Record t : Type := mk {
  CertificateValidationRecords : list CertificateValidationRecord.t;
  DomainName : option string;
  EnableWWWSubdomain : option bool;
  Status : string;
}.
End CustomDomain.

Module AssociateCustomDomainInput.
Record t : Type := mk {
  DomainName : option string;
  EnableWWWSubdomain : option bool;
  ServiceArn : option string;
}.
End AssociateCustomDomainInput.

Module AssociateCustomDomainOutput.
Record t : Type := mk {
  CustomDomain : option CustomDomain.t;
  DNSTarget : option string;
  ServiceArn : option string;
}.
End AssociateCustomDomainOutput.

Module DisassociateCustomDomainInput.
Record t : Type := mk {
  DomainName : option string;
  ServiceArn : option string;
}.
End DisassociateCustomDomainInput.

(** ** [schema.ResourceData] *)

Module schema.

Inductive ValueType : Type := TypeBool | TypeString | TypeSet.

(** Values handed to [d.Set]: a nil pointer, a string, a bool, or a list
    of flattened objects ([[]interface{}] of [map[string]interface{}]
    whose values are all strings here). *)
Inductive Value : Type :=
| VNil
| VString (s : string)
| VBool (b : bool)
| VList (l : list (gmap string string)).

(** The top-level [Schema] map of [ResourceCustomDomainAssociation]. *)
Definition Schema (key : string) : option ValueType :=
  if String.eqb key "certificate_validation_records" then Some TypeSet
  else if String.eqb key "dns_target" then Some TypeString
  else if String.eqb key "domain_name" then Some TypeString
  else if String.eqb key "enable_www_subdomain" then Some TypeBool
  else if String.eqb key "service_arn" then Some TypeString
  else if String.eqb key "status" then Some TypeString
  else None.

Record ResourceData : Type := mkResourceData {
  Id : string;
  IsNewResource : bool;
  attrs : gmap string Value;
}.

Definition SetId (v : string) (d : ResourceData) : ResourceData :=
  mkResourceData v (IsNewResource d) (attrs d).

Definition conforms (ty : ValueType) (v : Value) : bool :=
  match v, ty with
  | VNil, _ => true
  | VString _, TypeString => true
  | VBool _, TypeBool => true
  | VList _, TypeSet => true
  | _, _ => false
  end.

(** [d.Set]: fails on a key outside the schema or on a value of the wrong
    kind, and then leaves [d] as it was. *)
Definition Set' (key : string) (v : Value) (d : ResourceData)
  : option error * ResourceData :=
  match Schema key with
  | None => (Some (errorString ("Invalid address to set: " +:+ key)), d)
  | Some ty =>
      if conforms ty v
      then (None, mkResourceData (Id d) (IsNewResource d) (<[key := v]> (attrs d)))
      else (Some (errorString (key +:+ ": invalid value for the type")), d)
  end.

(** [d.Get(key).(string)]: the zero value when the attribute is unset. *)
Definition GetString (key : string) (d : ResourceData) : string :=
  match attrs d !! key with
  | Some (VString s) => s
  | _ => ""
  end.

(** [d.Get(key).(bool)] for an attribute whose schema default is [dflt]. *)
Definition GetBool (key : string) (dflt : bool) (d : ResourceData) : bool :=
  match attrs d !! key with
  | Some (VBool b) => b
  | _ => dflt
  end.

(** A pointer argument of [d.Set] is dereferenced, nil stays nil. *)
Definition ofStringPtr (p : option string) : Value :=
  match p with Some s => VString s | None => VNil end.

Definition ofBoolPtr (p : option bool) : Value :=
  match p with Some b => VBool b | None => VNil end.

End schema.

Import schema.

(** ** [flattenCustomDomainCertificateValidationRecords] *)

(** The body of the loop: one map per record. *)
Definition flattenRecord (record : CertificateValidationRecord.t)
  : gmap string string :=
  <["name" := ToString (CertificateValidationRecord.Name record)]>
  (<["status" := CertificateValidationRecord.Status record]>
  (<["type" := ToString (CertificateValidationRecord.Type' record)]>
  (<["value" := ToString (CertificateValidationRecord.Value record)]> ∅))).

(** The loop itself, with its accumulator [results]. *)
Fixpoint flattenLoop (results : list (gmap string string))
    (records : list CertificateValidationRecord.t) : list (gmap string string) :=
  match records with
  | [] => results
  | record :: records' => flattenLoop (results ++ [flattenRecord record]) records'
  end.

Definition flattenCustomDomainCertificateValidationRecords
    (records : list CertificateValidationRecord.t) : list (gmap string string) :=
  flattenLoop [] records.


(** ** The remote side *)

(** What the handlers call through [conn].  [AssociateCustomDomain] and
    [DisassociateCustomDomain] are methods of the SDK client;
    [FindCustomDomain], [WaitCustomDomainAssociationCreated] and
    [WaitCustomDomainAssociationDeleted] are functions of the package that
    live in sibling files and are taken as parameters here.  Each call may
    change the remote world [W]; a Go [(value, error)] result is a pair of
    options. *)
Record Remote (W : Type) : Type := mkRemote {
  AssociateCustomDomain :
    AssociateCustomDomainInput.t -> W ->
    (option AssociateCustomDomainOutput.t * option error) * W;
  DisassociateCustomDomain :
    DisassociateCustomDomainInput.t -> W -> option error * W;
  FindCustomDomain :
    string -> string -> W -> (option CustomDomain.t * option error) * W;
  WaitCustomDomainAssociationCreated :
    string -> string -> W -> option error * W;
  WaitCustomDomainAssociationDeleted :
    string -> string -> W -> option error * W;
}.

Arguments AssociateCustomDomain {W} _ _ _.
Arguments DisassociateCustomDomain {W} _ _ _.
Arguments FindCustomDomain {W} _ _ _ _.
Arguments WaitCustomDomainAssociationCreated {W} _ _ _ _.
Arguments WaitCustomDomainAssociationDeleted {W} _ _ _ _.

(** How a handler ends: it returns its diagnostics, leaving the resource
    data and the remote world in some state, or it dereferences a nil
    pointer. *)
Inductive Outcome (W : Type) : Type :=
| Returned (diags : diag.Diagnostics) (d : ResourceData) (w : W)
| Panic.

Arguments Returned {W} _ _ _.
Arguments Panic {W}.

(** ** The handlers *)

Section Handlers.

Context {W : Type}.
Variable conn : Remote W.

(** [resourceCustomDomainAssociationRead].  The two [log.Printf] warnings
    are not part of the state and are left out. *)
Definition resourceCustomDomainAssociationRead (d : ResourceData) (w : W)
  : Outcome W :=
  match CustomDomainAssociationParseID (Id d) with
  | inr err => Returned (diag.FromErr err) d w
  | inl (domainName, serviceArn) =>
      let '((customDomain, err), w1) := FindCustomDomain conn domainName serviceArn w in
      if negb (IsNewResource d) && IsA_ResourceNotFoundException err
      then Returned [] (SetId "" d) w1
      else
        match customDomain with
        | None =>
            if IsNewResource d
            then Returned
                   (diag.Errorf ("reading App Runner Custom Domain Association ("
                                 +:+ Id d +:+ "): empty output after creation"))
                   d w1
            else Returned [] (SetId "" d) w1
        | Some customDomain =>
            match Set' "certificate_validation_records"
                    (VList (flattenCustomDomainCertificateValidationRecords
                              (CustomDomain.CertificateValidationRecords customDomain)))
                    d with
            | (Some err, d1) =>
                Returned
                  (diag.Errorf ("setting certificate_validation_records: "
                                +:+ Error err))
                  d1 w1
            | (None, d1) =>
                let d2 := (Set' "domain_name"
                             (ofStringPtr (CustomDomain.DomainName customDomain)) d1).2 in
                let d3 := (Set' "enable_www_subdomain"
                             (ofBoolPtr (CustomDomain.EnableWWWSubdomain customDomain)) d2).2 in
                let d4 := (Set' "service_arn" (VString serviceArn) d3).2 in
                let d5 := (Set' "status"
                             (VString (CustomDomain.Status customDomain)) d4).2 in
                Returned [] d5 w1
            end
        end
  end.

(** [resourceCustomDomainAssociationCreate]. *)
Definition resourceCustomDomainAssociationCreate (d : ResourceData) (w : W)
  : Outcome W :=
  let domainName := GetString "domain_name" d in
  let serviceArn := GetString "service_arn" d in
  let input :=
    AssociateCustomDomainInput.mk
      (Some domainName)
      (Some (GetBool "enable_www_subdomain" true d))
      (Some serviceArn) in
  let '((output, err), w1) := AssociateCustomDomain conn input w in
  match err with
  | Some err =>
      Returned
        (diag.Errorf ("associating App Runner Custom Domain (" +:+ domainName
                      +:+ ") for Service (" +:+ serviceArn +:+ "): "
                      +:+ Error err))
        d w1
  | None =>
      match output with
      | None =>
          Returned
            (diag.Errorf ("associating App Runner Custom Domain (" +:+ domainName
                          +:+ ") for Service (" +:+ serviceArn
                          +:+ "): empty output"))
            d w1
      | Some output =>
          match AssociateCustomDomainOutput.CustomDomain output with
          | None => Panic
          | Some customDomain =>
              let d1 :=
                SetId (IdentityCodec.Encode
                         (ToString (CustomDomain.DomainName customDomain))
                         (ToString (AssociateCustomDomainOutput.ServiceArn output)))
                      d in
              let d2 := (Set' "dns_target"
                           (ofStringPtr (AssociateCustomDomainOutput.DNSTarget output))
                           d1).2 in
              let '(err, w2) :=
                WaitCustomDomainAssociationCreated conn domainName serviceArn w1 in
              match err with
              | Some err =>
                  Returned
                    (diag.Errorf
                       ("waiting for App Runner Custom Domain Association ("
                        +:+ Id d2 +:+ ") creation: " +:+ Error err))
                    d2 w2
              | None => resourceCustomDomainAssociationRead d2 w2
              end
          end
      end
  end.

(** [resourceCustomDomainAssociationDelete]. *)
Definition resourceCustomDomainAssociationDelete (d : ResourceData) (w : W)
  : Outcome W :=
  match CustomDomainAssociationParseID (Id d) with
  | inr err => Returned (diag.FromErr err) d w
  | inl (domainName, serviceArn) =>
      let input :=
        DisassociateCustomDomainInput.mk (Some domainName) (Some serviceArn) in
      let '(err, w1) := DisassociateCustomDomain conn input w in
      if IsA_ResourceNotFoundException err then Returned [] d w1
      else
        match err with
        | Some err =>
            Returned
              (diag.Errorf ("disassociating App Runner Custom Domain ("
                            +:+ domainName +:+ ") for Service (" +:+ serviceArn
                            +:+ "): " +:+ Error err))
              d w1
        | None =>
            let '(err, w2) :=
              WaitCustomDomainAssociationDeleted conn domainName serviceArn w1 in
            match err with
            | Some err =>
                if IsA_ResourceNotFoundException (Some err)
                then Returned [] d w2
                else Returned
                       (diag.Errorf
                          ("waiting for App Runner Custom Domain Association ("
                           +:+ Id d +:+ ") deletion: " +:+ Error err))
                       d w2
            | None => Returned [] d w2
            end
        end
  end.

End Handlers.

(** ** The Waiter *)

Module Waiter.

(** What one probe sees: a status value, or the explicit absent marker. *)
Inductive Observation : Type :=
| Status (s : string)
| Absent.

(** The errors a wait can return. *)
Inductive WaitError : Type :=
| ProbeError (e : error)
| TerminalFailureError (status : string)
| TimeoutError.

(** [Polling] is initial, the others are terminal.  [Aborted] is the exit
    taken when the probe itself fails. *)
Inductive State : Type :=
| Polling
| Succeeded
| Failed (status : string)
| TimedOut
| Aborted (e : error).

Record Config (W : Type) : Type := mkConfig {
  probe : W -> (Observation + error) * W;
  success : gset string;
  absentIsSuccess : bool;
  failure : gset string;
  pollInterval : nat;
  deadline : nat;
}.

Arguments probe {W} _ _.
Arguments success {W} _.
Arguments absentIsSuccess {W} _.
Arguments failure {W} _.
Arguments pollInterval {W} _.
Arguments deadline {W} _.

(** The loop variables: the state, the clock, the number of probes issued
    so far, and the remote world the probe reads. *)
Record Machine (W : Type) : Type := mkMachine {
  state : State;
  now : nat;
  probes : nat;
  world : W;
}.

Arguments mkMachine {W} _ _ _ _.
Arguments state {W} _.
Arguments now {W} _.
Arguments probes {W} _.
Arguments world {W} _.

Section Loop.

Context {W : Type}.
Variable cfg : Config W.

Definition inSuccess (o : Observation) : bool :=
  match o with
  | Status s => bool_decide (s ∈ success cfg)
  | Absent => absentIsSuccess cfg
  end.

(** The failing status of an observation in the terminal-failure set. *)
Definition failingStatus (o : Observation) : option string :=
  match o with
  | Status s => if bool_decide (s ∈ failure cfg) then Some s else None
  | Absent => None
  end.

(** Modelled from the spec: the waiter lives in a sibling file of the
    package.  One turn of the loop: call the probe; a probe error aborts;
    an observation in the success set succeeds; one in the failure set
    fails; otherwise time out if the deadline has passed, else sleep for
    the poll interval and stay in [Polling]. *)
Definition step (m : Machine W) : Machine W :=
  match state m with
  | Polling =>
      let '(r, w') := probe cfg (world m) in
      let n := S (probes m) in
      match r with
      | inr e => mkMachine (Aborted e) (now m) n w'
      | inl o =>
          if inSuccess o then mkMachine Succeeded (now m) n w'
          else
            match failingStatus o with
            | Some s => mkMachine (Failed s) (now m) n w'
            | None =>
                if (deadline cfg <=? now m)%nat
                then mkMachine TimedOut (now m) n w'
                else mkMachine Polling (now m + pollInterval cfg) n w'
            end
      end
  | _ => m
  end.

(** Modelled from the spec: the loop of the waiter, cut after [fuel]
    turns. *)
Fixpoint run (fuel : nat) (m : Machine W) : Machine W :=
  match fuel with
  | O => m
  | S fuel' =>
      match state m with
      | Polling => run fuel' (step m)
      | _ => m
      end
  end.

(** What the caller of the waiter gets back from a terminal state. *)
Definition result (s : State) : option (option WaitError) :=
  match s with
  | Polling => None
  | Succeeded => Some None
  | Failed status => Some (Some (TerminalFailureError status))
  | TimedOut => Some (Some TimeoutError)
  | Aborted e => Some (Some (ProbeError e))
  end.

End Loop.

(** A probe that replays a recorded sequence of observations. *)
Definition replay (script : list (Observation + error))
  : (Observation + error) * list (Observation + error) :=
  match script with
  | r :: script' => (r, script')
  | [] => (inr (errorString "probe script exhausted"), [])
  end.

Definition start (t0 : nat) (script : list (Observation + error))
  : Machine (list (Observation + error)) :=
  mkMachine Polling t0 0 script.

(** The waiter over a recorded sequence of observations. *)
Definition scripted (success : gset string) (absentIsSuccess : bool)
    (failure : gset string) (pollInterval deadline : nat)
  : Config (list (Observation + error)) :=
  mkConfig _ replay success absentIsSuccess failure pollInterval deadline.

(** A probe result after which the waiter keeps polling as long as the
    deadline allows: an observation in neither set. *)
Definition nonTerminal {W : Type} (cfg : Config W)
    (r : Observation + error) : bool :=
  match r with
  | inl o =>
      negb (inSuccess cfg o) &&
      match failingStatus cfg o with Some _ => false | None => true end
  | inr _ => false
  end.

End Waiter.

(** ** A remote side with fixed answers *)

(** Every call answers as given and bumps the world, a call counter. *)
Definition fixedRemote
    (associate : option AssociateCustomDomainOutput.t * option error)
    (disassociate : option error)
    (find : option CustomDomain.t * option error)
    (waitCreated waitDeleted : option error) : Remote nat :=
  mkRemote nat
    (fun _ n => (associate, S n))
    (fun _ n => (disassociate, S n))
    (fun _ _ n => (find, S n))
    (fun _ _ n => (waitCreated, S n))
    (fun _ _ n => (waitDeleted, S n)).

(** ** A remote side that keeps the associations in memory *)

(** The world is the set of associations that exist remotely, keyed by
    domain name and service.  Associating adds the key, disassociating
    removes it or reports that it is not there, describing looks it up;
    the waits find the remote side settled at once. *)
Definition inMemoryDomain (domainName : string) : CustomDomain.t :=
  CustomDomain.mk [] (Some domainName) (Some true) "active".

Definition inMemoryRemote : Remote (gset (string * string)) :=
  mkRemote (gset (string * string))
    (fun input w =>
       let domainName := ToString (AssociateCustomDomainInput.DomainName input) in
       let serviceArn := ToString (AssociateCustomDomainInput.ServiceArn input) in
       ((Some (AssociateCustomDomainOutput.mk
                 (Some (inMemoryDomain domainName))
                 (Some "abc.awsapprunner.com")
                 (Some serviceArn)),
         None),
        {[ (domainName, serviceArn) ]} ∪ w))
    (fun input w =>
       let domainName := ToString (DisassociateCustomDomainInput.DomainName input) in
       let serviceArn := ToString (DisassociateCustomDomainInput.ServiceArn input) in
       if bool_decide ((domainName, serviceArn) ∈ w)
       then (None, w ∖ {[ (domainName, serviceArn) ]})
       else (Some (ResourceNotFoundException domainName), w))
    (fun domainName serviceArn w =>
       if bool_decide ((domainName, serviceArn) ∈ w)
       then ((Some (inMemoryDomain domainName), None), w)
       else ((None, Some (ResourceNotFoundException domainName)), w))
    (fun _ _ w => (None, w))
    (fun _ _ w => (None, w)).

(** ** Names for the intermediate values of the handlers *)

(** The request Create sends for the resource data [d]. *)
Definition associateInput (d : ResourceData) : AssociateCustomDomainInput.t :=
  AssociateCustomDomainInput.mk
    (Some (GetString "domain_name" d))
    (Some (GetBool "enable_www_subdomain" true d))
    (Some (GetString "service_arn" d)).

(** The resource data right after Create has stored the identifier and the
    DNS target of the response [output]. *)
Definition recorded (output : AssociateCustomDomainOutput.t)
    (customDomain : CustomDomain.t) (d : ResourceData) : ResourceData :=
  (Set' "dns_target"
     (ofStringPtr (AssociateCustomDomainOutput.DNSTarget output))
     (SetId (IdentityCodec.Encode (ToString (CustomDomain.DomainName customDomain))
                    (ToString (AssociateCustomDomainOutput.ServiceArn output)))
            d)).2.

(** The request Delete sends for a decoded identifier. *)
Definition disassociateInput (domainName serviceArn : string)
  : DisassociateCustomDomainInput.t :=
  DisassociateCustomDomainInput.mk (Some domainName) (Some serviceArn).

(** ** [ResourceCustomDomainAssociation]: the resource and its schema *)

Module resource.

(** One [*schema.Schema] of the resource: the fields the declaration
    sets.  [Elem] lists the attributes of the nested resource of a set,
    all of them computed strings here. *)
Record Attribute : Type := mkAttribute {
  Type' : ValueType;
  Required : bool;
  Optional : bool;
  Computed : bool;
  ForceNew : bool;
  Default : option Value;
  Elem : list (string * ValueType);
}.

(** Which operations the [*schema.Resource] declares.  There is no
    update function; the importer passes the identifier through. *)
Record Operations : Type := mkOperations {
  hasCreate : bool;
  hasRead : bool;
  hasUpdate : bool;
  hasDelete : bool;
  hasImporter : bool;
}.

Definition operations : Operations := mkOperations true true false true true.

(** The [Schema] map of [ResourceCustomDomainAssociation], in the order of
    the declaration. *)
Definition attributes : list (string * Attribute) :=
  [ ("certificate_validation_records",
     mkAttribute TypeSet false false true false None
       [ ("name", TypeString); ("status", TypeString);
         ("type", TypeString); ("value", TypeString) ]);
    ("dns_target", mkAttribute TypeString false false true false None []);
    ("domain_name", mkAttribute TypeString true false false true None []);
    ("enable_www_subdomain",
     mkAttribute TypeBool false true false true (Some (VBool true)) []);
    ("service_arn", mkAttribute TypeString true false false true None []);
    ("status", mkAttribute TypeString false false true false None []) ].

Fixpoint lookup (key : string) (l : list (string * Attribute))
  : option Attribute :=
  match l with
  | [] => None
  | (k, a) :: l' => if String.eqb key k then Some a else lookup key l'
  end.

(** An attribute the configuration can set. *)
Definition configurable (a : Attribute) : bool := Required a || Optional a.

(** [schema.ImportStatePassthroughContext]: the resource data as it comes,
    holding only the identifier given to the import. *)
Definition ImportStatePassthroughContext (d : ResourceData)
  : list ResourceData := [d].

End resource.

(** The attributes Read writes. *)
Definition readKeys : list string :=
  [ "certificate_validation_records"; "domain_name"; "enable_www_subdomain";
    "service_arn"; "status" ].

(** The attribute map after a Read that found [customDomain] for the
    service [serviceArn]. *)
Definition refreshed (customDomain : CustomDomain.t) (serviceArn : string)
    (m : gmap string Value) : gmap string Value :=
  <["status" := VString (CustomDomain.Status customDomain)]>
  (<["service_arn" := VString serviceArn]>
  (<["enable_www_subdomain" := ofBoolPtr (CustomDomain.EnableWWWSubdomain customDomain)]>
  (<["domain_name" := ofStringPtr (CustomDomain.DomainName customDomain)]>
  (<["certificate_validation_records" :=
       VList (flattenCustomDomainCertificateValidationRecords
                (CustomDomain.CertificateValidationRecords customDomain))]> m)))).

(** A record none of whose pointers is nil. *)
Definition allSet (record : CertificateValidationRecord.t) : bool :=
  match CertificateValidationRecord.Name record,
        CertificateValidationRecord.Type' record,
        CertificateValidationRecord.Value record with
  | Some _, Some _, Some _ => true
  | _, _, _ => false
  end.

(** * Properties *)

(** ** The identity codec *)

Module CodecFacts.

Import IdentityCodec.

Lemma Split_not_nil (sep : ascii) (s : string) : Split sep s ≠ [].
Proof.
  induction s as [|c s IH]; simpl; [done|].
  destruct (Ascii.eqb c sep); [done|].
  destruct (Split sep s); done.
Qed.

(** A string without the separator is its own single segment. *)
Lemma Split_no_sep (sep : ascii) (s : string) :
  Contains sep s = false → Split sep s = [s].
Proof.
  induction s as [|c s IH]; simpl; [done|].
  intros [Hc Hs]%orb_false_elim.
  rewrite Hc, (IH Hs). done.
Qed.

(** The first separator ends the first segment. *)
Lemma Split_app (sep : ascii) (a b : string) :
  Contains sep a = false →
  Split sep (a +:+ String sep b) = a :: Split sep b.
Proof.
  induction a as [|c a IH]; simpl.
  - intros _. by rewrite Ascii.eqb_refl.
  - intros [Hc Ha]%orb_false_elim.
    rewrite Hc, (IH Ha). done.
Qed.

(** Every segment of a split is free of the separator. *)
Lemma Split_segments_clean (sep : ascii) (s : string) :
  Forall (fun seg => Contains sep seg = false) (Split sep s).
Proof.
  induction s as [|c s IH]; simpl.
  - by repeat constructor.
  - destruct (Ascii.eqb c sep) eqn:Hc.
    + by constructor.
    + destruct (Split sep s) as [|seg segs]; [by repeat constructor; simpl; rewrite Hc|].
      inversion_clear IH as [|? ? Hseg Hsegs].
      constructor; [|done]. simpl. by rewrite Hc, Hseg.
Qed.

(** A split into one segment found no separator. *)
Lemma Split_one (sep : ascii) (s b : string) :
  Split sep s = [b] → s = b.
Proof.
  revert b. induction s as [|c s IH]; intros b; simpl.
  - by intros [= <-].
  - destruct (Ascii.eqb c sep).
    + intros [= _ Hs]. by apply Split_not_nil in Hs.
    + pose proof (Split_not_nil sep s) as Hnil.
      destruct (Split sep s) as [|seg segs]; [done|].
      intros [= <- ->]. f_equal. by apply IH.
Qed.

(** Two segments come from exactly one separator between them. *)
Lemma Split_two (sep : ascii) (s a b : string) :
  Split sep s = [a; b] → s = a +:+ String sep b.
Proof.
  revert a. induction s as [|c s IH]; intros a; simpl; [done|].
  destruct (Ascii.eqb c sep) eqn:Hc.
  - intros [= <- Hs]. apply Ascii.eqb_eq in Hc as ->.
    apply Split_one in Hs as ->. reflexivity.
  - pose proof (Split_not_nil sep s) as Hnil.
    destruct (Split sep s) as [|seg segs]; [done|].
    intros [= <- ->]. rewrite (IH seg eq_refl) at 1. reflexivity.
Qed.

Lemma nonEmpty_true (s : string) : nonEmpty s = true ↔ s ≠ "".
Proof. destruct s; simpl; split; done. Qed.

(** Decoding two clean, non-empty fields joined by the delimiter. *)
Lemma Decode_joined (a b : string) :
  nonEmpty a = true → nonEmpty b = true →
  Contains delimiter a = false → Contains delimiter b = false →
  Decode (a +:+ String delimiter b) = inl (a, b).
Proof.
  intros Ha Hb Hca Hcb. unfold Decode.
  rewrite (Split_app _ _ _ Hca), (Split_no_sep _ _ Hcb).
  by rewrite Ha, Hb.
Qed.

End CodecFacts.

Import IdentityCodec.

(** C6.  Round-trip law of the identity codec: for all non-empty strings
    [a] and [b] that do not contain the delimiter, decoding the identifier
    that Create builds from them, [a] and [b] joined by the delimiter,
    gives back the pair [(a, b)]. *)
Theorem Decode_Encode_roundtrip (a b : string) :
  a ≠ "" → b ≠ "" →
  Contains delimiter a = false → Contains delimiter b = false →
  Decode (Encode a b) = inl (a, b).
Proof.
  intros Ha Hb Hca Hcb. unfold Encode.
  apply CodecFacts.Decode_joined; [| |done..];
    by apply CodecFacts.nonEmpty_true.
Qed.

Lemma Decode_Encode_roundtrip_witness :
  Decode (Encode "example.com" "svc-1") = inl ("example.com", "svc-1").
Proof.
  apply (Decode_Encode_roundtrip "example.com" "svc-1");
    [discriminate | discriminate | reflexivity | reflexivity].
Defined.

(** C7.  Decode fails with [MalformedIdentity] exactly when splitting the
    input on the delimiter does not yield two segments or yields an empty
    segment; it validates nothing else: every pair of non-empty,
    delimiter-free fields joined by the delimiter is accepted, whatever the
    fields look like, and only such inputs are. *)
Theorem Decode_MalformedIdentity (id : string) :
  (Decode id = inr (MalformedIdentity id) ↔
     List.length (Split delimiter id) ≠ 2 ∨ "" ∈ Split delimiter id) ∧
  (∀ a b : string,
     Decode id = inl (a, b) ↔
       id = Encode a b ∧ a ≠ "" ∧ b ≠ "" ∧
       Contains delimiter a = false ∧ Contains delimiter b = false).
Proof.
  split.
  - unfold Decode.
    destruct (Split delimiter id) as [|a [|b [|c segs]]] eqn:Hs; simpl.
    + split; [left; lia | done].
    + split; [left; lia | done].
    + destruct a, b; simpl; split; try done.
      * intros _. right. set_solver.
      * intros _. right. set_solver.
      * intros _. right. set_solver.
      * intros [Hlen | Hin]; [lia|].
        rewrite !elem_of_cons, elem_of_nil in Hin.
        destruct Hin as [Hin | [Hin | []]]; discriminate Hin.
    + split; [left; lia | done].
  - intros a b. split.
    + unfold Decode.
      destruct (Split delimiter id) as [|a' [|b' [|c segs]]] eqn:Hs; try done.
      destruct (nonEmpty a' && nonEmpty b') eqn:Hne; [|done].
      intros [= -> ->].
      apply andb_true_iff in Hne as [Ha Hb].
      pose proof (CodecFacts.Split_segments_clean delimiter id) as Hclean.
      rewrite Hs in Hclean.
      inversion_clear Hclean as [|? ? Hca Hrest].
      inversion_clear Hrest as [|? ? Hcb _].
      repeat split; try done.
      * by apply CodecFacts.Split_two.
      * by apply CodecFacts.nonEmpty_true.
      * by apply CodecFacts.nonEmpty_true.
    + intros (-> & Ha & Hb & Hca & Hcb). unfold Encode.
      apply CodecFacts.Decode_joined; [| |done..];
        by apply CodecFacts.nonEmpty_true.
Qed.

Lemma Decode_MalformedIdentity_witness :
  Decode "malformed-no-delimiter"
  = inr (MalformedIdentity "malformed-no-delimiter").
Proof.
  apply (proj1 (Decode_MalformedIdentity "malformed-no-delimiter")).
  left. vm_compute. discriminate.
Defined.

(** The example of the specification: no delimiter, one segment. *)
Example Decode_no_delimiter :
  Decode "malformed-no-delimiter"
  = inr (MalformedIdentity "malformed-no-delimiter").
Proof. reflexivity. Qed.

(** Three segments are as malformed as one. *)
Example Decode_three_segments :
  Decode "example.com,svc-1,extra"
  = inr (MalformedIdentity "example.com,svc-1,extra").
Proof. reflexivity. Qed.

Example Decode_empty_segment :
  Decode ",svc-1" = inr (MalformedIdentity ",svc-1") ∧
  Decode "example.com," = inr (MalformedIdentity "example.com,").
Proof. split; reflexivity. Qed.

(** ** Read *)

Section ReadFacts.

Context {W : Type}.
Variable conn : Remote W.

Lemma Set'_Id (key : string) (v : Value) (d : ResourceData) :
  Id (Set' key v d).2 = Id d.
Proof. unfold Set'. destruct (Schema key); [destruct (conforms _ _)|]; done. Qed.

Lemma Set'_IsNewResource (key : string) (v : Value) (d : ResourceData) :
  IsNewResource (Set' key v d).2 = IsNewResource d.
Proof. unfold Set'. destruct (Schema key); [destruct (conforms _ _)|]; done. Qed.

(** Read always returns, and for a new resource it leaves the identifier
    alone. *)
Lemma Read_returns (d : ResourceData) (w : W) :
  ∃ diags d' w',
    resourceCustomDomainAssociationRead conn d w = Returned diags d' w' ∧
    (IsNewResource d = true → Id d' = Id d).
Proof.
  unfold resourceCustomDomainAssociationRead.
  destruct (CustomDomainAssociationParseID (Id d)) as [[dn sa]|err]; [|by eauto].
  destruct (FindCustomDomain conn dn sa w) as [[cd err] w1].
  destruct (IsNewResource d) eqn:Hnew; cbn [negb andb].
  - destruct cd as [cd|]; [|by eauto].
    set (v := VList _).
    pose proof (Set'_Id "certificate_validation_records" v d) as Hid.
    destruct (Set' "certificate_validation_records" v d) as [[e|] d1];
      simpl in Hid; [by eauto|].
    do 3 eexists. split; [reflexivity|]. intros _. rewrite !Set'_Id. exact Hid.
  - destruct (IsA_ResourceNotFoundException err);
      [by do 3 eexists; split; [reflexivity | discriminate]|].
    destruct cd as [cd|];
      [|by do 3 eexists; split; [reflexivity | discriminate]].
    destruct (Set' "certificate_validation_records" _ d) as [[e|] d1];
      do 3 eexists; (split; [reflexivity | discriminate]).
Qed.

(** What Read does with a failed describe that is no not-found error, on a
    resource that is not new: the error is dropped, and so is the
    identifier. *)
Lemma Read_error_dropped (d : ResourceData) (w w1 : W)
    (domainName serviceArn : string) (e : error) :
  CustomDomainAssociationParseID (Id d) = inl (domainName, serviceArn) →
  FindCustomDomain conn domainName serviceArn w = ((None, Some e), w1) →
  IsNewResource d = false →
  resourceCustomDomainAssociationRead conn d w = Returned [] (SetId "" d) w1.
Proof.
  intros Hid Hfind Hnew. unfold resourceCustomDomainAssociationRead.
  rewrite Hid, Hfind, Hnew. simpl.
  by destruct (errorsAs_ResourceNotFoundException e).
Qed.

End ReadFacts.

(** C4.  When the describe call of Read fails with a not-found error: for
    a resource that is not new, Read returns no diagnostics and clears the
    identifier, which drops the resource from the local state; for a new
    resource, it keeps the identifier and returns the error diagnostic
    "empty output after creation" instead. *)
Theorem Read_NotFound {W : Type} (conn : Remote W) (d : ResourceData)
    (w w1 : W) (domainName serviceArn : string) (e : error) :
  CustomDomainAssociationParseID (Id d) = inl (domainName, serviceArn) →
  FindCustomDomain conn domainName serviceArn w = ((None, Some e), w1) →
  errorsAs_ResourceNotFoundException e = true →
  resourceCustomDomainAssociationRead conn d w =
    if IsNewResource d
    then Returned
           (diag.Errorf ("reading App Runner Custom Domain Association ("
                         +:+ Id d +:+ "): empty output after creation"))
           d w1
    else Returned [] (SetId "" d) w1.
Proof.
  intros Hid Hfind He. unfold resourceCustomDomainAssociationRead.
  rewrite Hid, Hfind. simpl. rewrite He.
  by destruct (IsNewResource d).
Qed.

Lemma Read_NotFound_witness :
  let conn := fixedRemote (None, None) None
                (None, Some (ResourceNotFoundException "no such domain"))
                None None in
  resourceCustomDomainAssociationRead conn
    (mkResourceData "example.com,svc-1" false ∅) 0
  = Returned [] (mkResourceData "" false ∅) 1 ∧
  resourceCustomDomainAssociationRead conn
    (mkResourceData "example.com,svc-1" true ∅) 0
  = Returned
      (diag.Errorf "reading App Runner Custom Domain Association (example.com,svc-1): empty output after creation")
      (mkResourceData "example.com,svc-1" true ∅) 1.
Proof.
  intros conn. split.
  - apply (Read_NotFound conn (mkResourceData "example.com,svc-1" false ∅) 0 1
             "example.com" "svc-1" (ResourceNotFoundException "no such domain"));
      reflexivity.
  - apply (Read_NotFound conn (mkResourceData "example.com,svc-1" true ∅) 0 1
             "example.com" "svc-1" (ResourceNotFoundException "no such domain"));
      reflexivity.
Defined.

(** C1.  Read on a resource that is not new, whose describe call fails
    with an internal service error: Read returns no diagnostics and clears
    the identifier, as it does for an absent association.  The error does
    not reach the caller. *)
Theorem Read_RemoteError_not_surfaced :
  resourceCustomDomainAssociationRead
    (fixedRemote (None, None) None
       (None, Some (InternalServiceErrorException "try again later"))
       None None)
    (mkResourceData "example.com,svc-1" false ∅) 0
  = Returned [] (mkResourceData "" false ∅) 1.
Proof. reflexivity. Qed.

(** On a new resource the same failure does give an error diagnostic, but
    a fixed one that does not carry the error of the describe call. *)
Example Read_RemoteError_after_create :
  resourceCustomDomainAssociationRead
    (fixedRemote (None, None) None
       (None, Some (InternalServiceErrorException "try again later"))
       None None)
    (mkResourceData "example.com,svc-1" true ∅) 0
  = Returned
      (diag.Errorf "reading App Runner Custom Domain Association (example.com,svc-1): empty output after creation")
      (mkResourceData "example.com,svc-1" true ∅) 1.
Proof. reflexivity. Qed.

(** ** Create *)

Lemma recorded_Id (output : AssociateCustomDomainOutput.t)
    (customDomain : CustomDomain.t) (d : ResourceData) :
  Id (recorded output customDomain d)
  = Encode (ToString (CustomDomain.DomainName customDomain))
           (ToString (AssociateCustomDomainOutput.ServiceArn output)).
Proof. unfold recorded. by rewrite Set'_Id. Qed.

Lemma recorded_dns_target (output : AssociateCustomDomainOutput.t)
    (customDomain : CustomDomain.t) (d : ResourceData) :
  attrs (recorded output customDomain d) !! "dns_target"
  = Some (ofStringPtr (AssociateCustomDomainOutput.DNSTarget output)).
Proof.
  unfold recorded, Set'. simpl.
  destruct (AssociateCustomDomainOutput.DNSTarget output); simpl;
    by rewrite lookup_insert_eq.
Qed.

(** C5.  When the associate call of Create fails, Create returns one error
    diagnostic that carries the text of that error behind the context of
    the call, and leaves the resource data exactly as it found it: no
    identifier is set and no DNS target is recorded. *)
Theorem Create_associate_error {W : Type} (conn : Remote W)
    (d : ResourceData) (w w1 : W)
    (output : option AssociateCustomDomainOutput.t) (e : error) :
  AssociateCustomDomain conn (associateInput d) w = ((output, Some e), w1) →
  resourceCustomDomainAssociationCreate conn d w =
    Returned
      (diag.Errorf ("associating App Runner Custom Domain ("
                    +:+ GetString "domain_name" d +:+ ") for Service ("
                    +:+ GetString "service_arn" d +:+ "): " +:+ Error e))
      d w1.
Proof.
  intros Hassoc. unfold resourceCustomDomainAssociationCreate.
  fold (associateInput d). by rewrite Hassoc.
Qed.

Lemma Create_associate_error_witness :
  let d := mkResourceData "" true
             {[ "domain_name" := VString "example.com";
                "service_arn" := VString "svc-1" ]} in
  resourceCustomDomainAssociationCreate
    (fixedRemote (None, Some (InvalidRequestException "bad domain"))
       None (None, None) None None) d 0
  = Returned
      (diag.Errorf "associating App Runner Custom Domain (example.com) for Service (svc-1): InvalidRequestException: bad domain")
      d 1.
Proof.
  intros d.
  apply (Create_associate_error
           (fixedRemote (None, Some (InvalidRequestException "bad domain"))
              None (None, None) None None)
           d 0 1 None (InvalidRequestException "bad domain")).
  reflexivity.
Defined.

(** C3.  When the associate call of Create succeeds, its response holding
    the custom domain, and the wait for the creation then returns an error
    (a failure status or a timeout), Create returns an error diagnostic
    with the text of that error, and the resource data keeps what was
    recorded before the wait: the identifier built from the response and
    the DNS target. *)
Theorem Create_wait_error_keeps_identity {W : Type} (conn : Remote W)
    (d : ResourceData) (w w1 w2 : W)
    (output : AssociateCustomDomainOutput.t) (customDomain : CustomDomain.t)
    (e : error) :
  AssociateCustomDomain conn (associateInput d) w = ((Some output, None), w1) →
  AssociateCustomDomainOutput.CustomDomain output = Some customDomain →
  WaitCustomDomainAssociationCreated conn
    (GetString "domain_name" d) (GetString "service_arn" d) w1 = (Some e, w2) →
  let d' := recorded output customDomain d in
  resourceCustomDomainAssociationCreate conn d w =
    Returned
      (diag.Errorf ("waiting for App Runner Custom Domain Association ("
                    +:+ Id d' +:+ ") creation: " +:+ Error e))
      d' w2
  ∧ Id d' = Encode (ToString (CustomDomain.DomainName customDomain))
                   (ToString (AssociateCustomDomainOutput.ServiceArn output))
  ∧ Id d' ≠ "".
Proof.
  intros Hassoc Hcd Hwait d'. split; [|split].
  - unfold resourceCustomDomainAssociationCreate.
    fold (associateInput d). rewrite Hassoc, Hcd.
    fold (recorded output customDomain d). by rewrite Hwait.
  - apply recorded_Id.
  - unfold d'. rewrite recorded_Id. unfold Encode.
    by destruct (ToString (CustomDomain.DomainName customDomain)).
Qed.

Lemma Create_wait_error_keeps_identity_witness :
  let d := mkResourceData "" true
             {[ "domain_name" := VString "example.com";
                "service_arn" := VString "svc-1" ]} in
  let output := AssociateCustomDomainOutput.mk
                  (Some (inMemoryDomain "example.com"))
                  (Some "abc.awsapprunner.com") (Some "svc-1") in
  let conn := fixedRemote (Some output, None) None (None, None)
                (Some (errorString "timeout while waiting for state to become 'active'"))
                None in
  ∃ d', resourceCustomDomainAssociationCreate conn d 0
        = Returned
            (diag.Errorf "waiting for App Runner Custom Domain Association (example.com,svc-1) creation: timeout while waiting for state to become 'active'")
            d' 2
        ∧ Id d' = "example.com,svc-1".
Proof.
  intros d output conn.
  exists (recorded output (inMemoryDomain "example.com") d).
  pose proof (Create_wait_error_keeps_identity conn d 0 1 2 output
                (inMemoryDomain "example.com")
                (errorString "timeout while waiting for state to become 'active'")
                eq_refl eq_refl eq_refl) as (Hcreate & Hid & _).
  split; [exact Hcreate | exact Hid].
Defined.

(** C9.  The identifier Create records is built from the domain name and
    the service of the associate response, not from the arguments of the
    call: once the associate call has succeeded, its response holding
    the custom domain, Create returns with that
    identifier in the resource data, whether the wait and the read that
    follow succeed or not.  Create runs on a resource marked as new. *)
Theorem Create_identity_from_response {W : Type} (conn : Remote W)
    (d : ResourceData) (w w1 : W)
    (output : AssociateCustomDomainOutput.t) (customDomain : CustomDomain.t) :
  IsNewResource d = true →
  AssociateCustomDomain conn (associateInput d) w = ((Some output, None), w1) →
  AssociateCustomDomainOutput.CustomDomain output = Some customDomain →
  ∃ diags d' w',
    resourceCustomDomainAssociationCreate conn d w = Returned diags d' w' ∧
    Id d' = Encode (ToString (CustomDomain.DomainName customDomain))
                   (ToString (AssociateCustomDomainOutput.ServiceArn output)).
Proof.
  intros Hnew Hassoc Hcd. unfold resourceCustomDomainAssociationCreate.
  fold (associateInput d). rewrite Hassoc, Hcd.
  fold (recorded output customDomain d).
  destruct (WaitCustomDomainAssociationCreated conn _ _ w1) as [[e|] w2].
  - do 3 eexists. split; [reflexivity|]. apply recorded_Id.
  - destruct (Read_returns conn (recorded output customDomain d) w2)
      as (diags & d' & w' & Hread & Hid).
    exists diags, d', w'. split; [exact Hread|].
    rewrite Hid, recorded_Id; [done|].
    unfold recorded. by rewrite Set'_IsNewResource.
Qed.

(** A remote side that answers with a normalised domain name: the
    identifier follows the response. *)
Lemma Create_identity_from_response_witness :
  let d := mkResourceData "" true
             {[ "domain_name" := VString "Example.COM";
                "service_arn" := VString "svc-1" ]} in
  let output := AssociateCustomDomainOutput.mk
                  (Some (inMemoryDomain "example.com"))
                  (Some "abc.awsapprunner.com") (Some "svc-1") in
  let conn := fixedRemote (Some output, None) None
                (Some (inMemoryDomain "example.com"), None) None None in
  ∃ diags d' w',
    resourceCustomDomainAssociationCreate conn d 0 = Returned diags d' w' ∧
    Id d' = "example.com,svc-1".
Proof.
  intros d output conn.
  exact (Create_identity_from_response conn d 0 1 output
           (inMemoryDomain "example.com") eq_refl eq_refl eq_refl).
Defined.

(** The response without its required member: the dereference panics. *)
Example Create_nil_CustomDomain :
  resourceCustomDomainAssociationCreate
    (fixedRemote (Some (AssociateCustomDomainOutput.mk None None None), None)
       None (None, None) None None)
    (mkResourceData "" true ∅) 0
  = Panic.
Proof. reflexivity. Qed.

(** End to end on the in-memory remote side. *)
Example Create_end_to_end :
  resourceCustomDomainAssociationCreate inMemoryRemote
    (mkResourceData "" true
       {[ "domain_name" := VString "example.com";
          "service_arn" := VString "svc-1";
          "enable_www_subdomain" := VBool true ]}) ∅
  = Returned []
      (mkResourceData "example.com,svc-1" true
         {[ "certificate_validation_records" := VList [];
            "dns_target" := VString "abc.awsapprunner.com";
            "domain_name" := VString "example.com";
            "enable_www_subdomain" := VBool true;
            "service_arn" := VString "svc-1";
            "status" := VString "active" ]})
      {[ ("example.com", "svc-1") ]}.
Proof. vm_compute. reflexivity. Qed.

(** ** Delete *)

(** Delete always returns and never touches the resource data. *)
Lemma Delete_returns {W : Type} (conn : Remote W) (d : ResourceData) (w : W) :
  ∃ diags w', resourceCustomDomainAssociationDelete conn d w = Returned diags d w'.
Proof.
  unfold resourceCustomDomainAssociationDelete.
  destruct (CustomDomainAssociationParseID (Id d)) as [[dn sa]|err]; [|by eauto].
  destruct (DisassociateCustomDomain conn _ w) as [err w1].
  destruct (IsA_ResourceNotFoundException err); [by eauto|].
  destruct err as [e|]; [by eauto|].
  destruct (WaitCustomDomainAssociationDeleted conn dn sa w1) as [[e|] w2];
    [|by eauto].
  destruct (IsA_ResourceNotFoundException (Some e)); by eauto.
Qed.

(** C2.  Delete is idempotent.  For every identifier that decodes: if the
    disassociate call fails with a not-found error, Delete returns no
    diagnostics; if the disassociate call succeeds and the wait for the
    deletion fails with a not-found error, Delete returns no diagnostics;
    and after any run of Delete, a second run that finds the association
    already gone returns no diagnostics either.  The resource data is the
    same after each run. *)
Theorem Delete_idempotent {W : Type} (conn : Remote W) (d : ResourceData)
    (w : W) (domainName serviceArn : string) :
  CustomDomainAssociationParseID (Id d) = inl (domainName, serviceArn) →
  let disassociate :=
    DisassociateCustomDomain conn (disassociateInput domainName serviceArn) in
  (IsA_ResourceNotFoundException (disassociate w).1 = true →
   resourceCustomDomainAssociationDelete conn d w
   = Returned [] d (disassociate w).2)
  ∧
  (∀ e w2,
     (disassociate w).1 = None →
     WaitCustomDomainAssociationDeleted conn domainName serviceArn
       (disassociate w).2 = (Some e, w2) →
     errorsAs_ResourceNotFoundException e = true →
     resourceCustomDomainAssociationDelete conn d w = Returned [] d w2)
  ∧
  (∀ diags d1 w1,
     resourceCustomDomainAssociationDelete conn d w = Returned diags d1 w1 →
     IsA_ResourceNotFoundException (disassociate w1).1 = true →
     resourceCustomDomainAssociationDelete conn d1 w1
     = Returned [] d1 (disassociate w1).2).
Proof.
  intros Hid disassociate.
  assert (∀ w0, IsA_ResourceNotFoundException (disassociate w0).1 = true →
                resourceCustomDomainAssociationDelete conn d w0
                = Returned [] d (disassociate w0).2) as Hfirst.
  { intros w0 Hnf. unfold resourceCustomDomainAssociationDelete.
    rewrite Hid. fold (disassociateInput domainName serviceArn).
    fold disassociate. destruct (disassociate w0) as [err w1].
    simpl in Hnf. by rewrite Hnf. }
  split; [apply Hfirst|]. split.
  - intros e w2 Hnone Hwait He. unfold resourceCustomDomainAssociationDelete.
    rewrite Hid. fold (disassociateInput domainName serviceArn).
    fold disassociate. destruct (disassociate w) as [err w1].
    simpl in Hnone, Hwait. subst err. simpl. rewrite Hwait. simpl.
    by rewrite He.
  - intros diags d1 w1 Hrun Hnf.
    destruct (Delete_returns conn d w) as (diags' & w' & Hd).
    rewrite Hd in Hrun. injection Hrun as _ <- _.
    by apply Hfirst.
Qed.

(** Deleting an association of the in-memory remote side: the run that
    removes it leaves a world in which the next run succeeds as well. *)
Lemma Delete_idempotent_witness :
  let d := mkResourceData "example.com,svc-1" false ∅ in
  resourceCustomDomainAssociationDelete inMemoryRemote d
    {[ ("example.com", "svc-1") ]} = Returned [] d ∅ ∧
  resourceCustomDomainAssociationDelete inMemoryRemote d ∅ = Returned [] d ∅.
Proof.
  intros d.
  assert (resourceCustomDomainAssociationDelete inMemoryRemote d
            {[ ("example.com", "svc-1") ]} = Returned [] d ∅) as Hrun
    by (vm_compute; reflexivity).
  split; [exact Hrun|].
  pose proof (Delete_idempotent inMemoryRemote d {[ ("example.com", "svc-1") ]}
                "example.com" "svc-1" eq_refl) as (_ & _ & Hagain).
  apply (Hagain [] d ∅ Hrun). vm_compute. reflexivity.
Defined.

Example Delete_twice_in_memory :
  let d := mkResourceData "example.com,svc-1" false ∅ in
  resourceCustomDomainAssociationDelete inMemoryRemote d
    {[ ("example.com", "svc-1") ]} = Returned [] d ∅ ∧
  resourceCustomDomainAssociationDelete inMemoryRemote d ∅ = Returned [] d ∅.
Proof. split; vm_compute; reflexivity. Qed.

(** A not-found error met during the wait, wrapped by the waiter. *)
Example Delete_wait_NotFound :
  let d := mkResourceData "example.com,svc-1" false ∅ in
  resourceCustomDomainAssociationDelete
    (fixedRemote (None, None) None (None, None) None
       (Some (wrapError "waiting for deletion"
                (ResourceNotFoundException "no such domain"))))
    d 0
  = Returned [] d 2.
Proof. reflexivity. Qed.

(** Any other error of the disassociate call is returned. *)
Example Delete_RemoteError :
  let d := mkResourceData "example.com,svc-1" false ∅ in
  resourceCustomDomainAssociationDelete
    (fixedRemote (None, None)
       (Some (InternalServiceErrorException "try again later"))
       (None, None) None None)
    d 0
  = Returned
      (diag.Errorf "disassociating App Runner Custom Domain (example.com) for Service (svc-1): InternalServiceErrorException: try again later")
      d 1.
Proof. reflexivity. Qed.

(** ** The flattened validation records *)

Lemma flattenLoop_app (results : list (gmap string string))
    (records : list CertificateValidationRecord.t) :
  flattenLoop results records = (results ++ (flattenRecord <$> records))%list.
Proof.
  revert results. induction records as [|record records IH]; intros results.
  - simpl. by rewrite app_nil_r.
  - simpl. rewrite IH. by rewrite <- app_assoc.
Qed.

Lemma flatten_fmap (records : list CertificateValidationRecord.t) :
  flattenCustomDomainCertificateValidationRecords records
  = flattenRecord <$> records.
Proof. apply flattenLoop_app. Qed.

(** C10.  The flattened list has as many entries as there are remote
    validation records, in the same order: the entry at each index is the
    map of the record at that index, with exactly the four keys name,
    status, type and value, each bound to the field of that record. *)
Theorem flatten_preserves_records
    (records : list CertificateValidationRecord.t) :
  List.length (flattenCustomDomainCertificateValidationRecords records)
  = List.length records
  ∧
  ∀ (i : nat) (record : CertificateValidationRecord.t),
    records !! i = Some record →
    ∃ m : gmap string string,
      flattenCustomDomainCertificateValidationRecords records !! i = Some m ∧
      dom m = ({[ "name"; "status"; "type"; "value" ]} : gset string) ∧
      m !! "name" = Some (ToString (CertificateValidationRecord.Name record)) ∧
      m !! "status" = Some (CertificateValidationRecord.Status record) ∧
      m !! "type" = Some (ToString (CertificateValidationRecord.Type' record)) ∧
      m !! "value" = Some (ToString (CertificateValidationRecord.Value record)).
Proof.
  rewrite flatten_fmap. split; [by rewrite length_fmap|].
  intros i record Hi. exists (flattenRecord record).
  split; [by rewrite list_lookup_fmap, Hi|].
  unfold flattenRecord. split.
  - rewrite !dom_insert_L, dom_empty_L. set_solver.
  - repeat split; by simplify_map_eq.
Qed.

Lemma flatten_preserves_records_witness :
  let r0 := CertificateValidationRecord.mk
              (Some "_a.example.com") "PENDING_VALIDATION"
              (Some "CNAME") (Some "_x.acm-validations.aws") in
  let r1 := CertificateValidationRecord.mk
              (Some "_b.example.com") "SUCCESS" (Some "CNAME") None in
  ∃ m : gmap string string,
    flattenCustomDomainCertificateValidationRecords [r0; r1] !! 1 = Some m ∧
    dom m = ({[ "name"; "status"; "type"; "value" ]} : gset string) ∧
    m !! "name" = Some "_b.example.com" ∧
    m !! "status" = Some "SUCCESS" ∧
    m !! "type" = Some "CNAME" ∧
    m !! "value" = Some "".
Proof.
  intros r0 r1.
  exact (proj2 (flatten_preserves_records [r0; r1]) 1 r1 eq_refl).
Defined.

(** No records: the nil slice. *)
Example flatten_nil : flattenCustomDomainCertificateValidationRecords [] = [].
Proof. reflexivity. Qed.

(** ** The Waiter *)

Open Scope list_scope.

Module WaiterFacts.

Import Waiter.

Section Step.

Context {W : Type}.
Variable cfg : Config W.

(** One turn of the loop on a failing status: [Failed], on the spot. *)
Lemma step_failing (m : Machine W) (s : string) (w' : W) :
  state m = Polling →
  probe cfg (world m) = (inl (Status s), w') →
  s ∈ failure cfg → s ∉ success cfg →
  step cfg m = mkMachine (Failed s) (now m) (S (probes m)) w'.
Proof.
  intros Hst Hprobe Hfail Hsucc. unfold step. rewrite Hst, Hprobe. simpl.
  rewrite (bool_decide_eq_false_2 _ Hsucc), (bool_decide_eq_true_2 _ Hfail).
  done.
Qed.

(** One turn on a non-terminal observation before the deadline: sleep. *)
Lemma step_nonTerminal (m : Machine W) (r : Observation + error) (w' : W) :
  state m = Polling →
  probe cfg (world m) = (r, w') →
  nonTerminal cfg r = true →
  now m < deadline cfg →
  step cfg m = mkMachine Polling (now m + pollInterval cfg) (S (probes m)) w'.
Proof.
  intros Hst Hprobe Hnt Hnow. unfold step. rewrite Hst, Hprobe.
  destruct r as [o|e]; [|done]. simpl in Hnt.
  apply andb_true_iff in Hnt as [Hs Hf]. apply negb_true_iff in Hs.
  rewrite Hs. destruct (failingStatus cfg o); [done|].
  by rewrite (proj2 (Nat.leb_gt _ _) Hnow).
Qed.

(** A terminal state is a fixed point of the loop. *)
Lemma run_terminal (fuel : nat) (m : Machine W) :
  state m ≠ Polling → run cfg fuel m = m.
Proof. destruct fuel; simpl; [done|]. by destruct (state m). Qed.

End Step.

(** The run over a script whose first [length pre] observations are
    non-terminal and whose next one is a failing status. *)
Lemma run_scripted_failure (success failure : gset string) (absentOK : bool)
    (interval deadline : nat) (s : string)
    (rest : list (Observation + error)) :
  s ∈ failure → s ∉ success →
  ∀ (pre : list (Observation + error)) (t n fuel : nat),
    let cfg := scripted success absentOK failure interval deadline in
    Forall (fun r => nonTerminal cfg r = true) pre →
    (∀ i, i < List.length pre → t + i * interval < deadline) →
    List.length pre < fuel →
    run cfg fuel (mkMachine Polling t n (pre ++ inl (Status s) :: rest))
    = mkMachine (Failed s) (t + List.length pre * interval)
        (n + S (List.length pre)) rest.
Proof.
  intros Hfail Hsucc pre. induction pre as [|r pre IH]; intros t n fuel cfg Hpre Htime Hfuel.
  - destruct fuel as [|fuel]; [simpl in Hfuel; lia|].
    simpl run.
    rewrite (step_failing cfg _ s rest); [|done..].
    rewrite run_terminal; [|done]. simpl. f_equal; lia.
  - destruct fuel as [|fuel]; [simpl in Hfuel; lia|].
    inversion_clear Hpre as [|? ? Hr Hpre'].
    simpl run.
    rewrite (step_nonTerminal cfg _ r (pre ++ inl (Status s) :: rest));
      [|done|done|done|].
    + simpl now. simpl probes.
      rewrite IH; [|done| |simpl in Hfuel; lia].
      * simpl. f_equal; lia.
      * intros i Hi.
        assert (S i < List.length (r :: pre)) as Hi' by (simpl; lia).
        specialize (Htime _ Hi'). rewrite Nat.mul_succ_l in Htime.
        change (Waiter.pollInterval cfg) with interval. lia.
    + simpl now.
      assert (0 < List.length (r :: pre)) as H0 by (simpl; lia).
      specialize (Htime _ H0). change (Waiter.deadline cfg) with deadline. lia.
Qed.

End WaiterFacts.

Import Waiter.

(** C8.  On every probe sequence, the waiter fails at the first
    observation of a status of the terminal-failure set: after any number
    of non-terminal observations made before the deadline, a failing
    status ends the run in [Failed] with the error that names it, after
    exactly that many probes plus one and at the time of that probe,
    wherever the deadline lies.  The failing status is not also a success
    status, which the waiter would test first. *)
Theorem Waiter_fails_at_failing_observation
    (success failure : gset string) (absentOK : bool)
    (interval deadline t0 fuel : nat) (s : string)
    (pre rest : list (Observation + error)) :
  let cfg := scripted success absentOK failure interval deadline in
  Forall (fun r => nonTerminal cfg r = true) pre →
  (∀ i, i < List.length pre → t0 + i * interval < deadline) →
  s ∈ failure → s ∉ success →
  List.length pre < fuel →
  run cfg fuel (start t0 (pre ++ inl (Status s) :: rest))
  = mkMachine (Failed s) (t0 + List.length pre * interval)
      (S (List.length pre)) rest
  ∧ result (Failed s) = Some (Some (TerminalFailureError s)).
Proof.
  intros cfg Hpre Htime Hfail Hsucc Hfuel. split; [|done].
  exact (WaiterFacts.run_scripted_failure success failure absentOK
           interval deadline s rest Hfail Hsucc pre t0 0 fuel
           Hpre Htime Hfuel).
Qed.

(** The sequence pending, create-failed: [Failed] at the second probe. *)
Lemma Waiter_fails_at_failing_observation_witness :
  run (scripted {[ "active" ]} false {[ "create-failed" ]} 5 100) 10
    (start 0 [inl (Status "pending"); inl (Status "create-failed")])
  = mkMachine (Failed "create-failed") 5 2 []
  ∧ result (Failed "create-failed")
    = Some (Some (TerminalFailureError "create-failed")).
Proof.
  apply (Waiter_fails_at_failing_observation {[ "active" ]} {[ "create-failed" ]}
           false 5 100 0 10 "create-failed" [inl (Status "pending")] []).
  - repeat constructor.
  - simpl. intros i Hi. lia.
  - apply elem_of_singleton. reflexivity.
  - intros H. apply elem_of_singleton in H. discriminate H.
  - simpl. lia.
Defined.

(** The deadline plays no part: already passed, the failing status still
    gives [Failed], not [TimedOut]. *)
Example Waiter_failure_after_deadline :
  state (run (scripted {[ "active" ]} false {[ "create-failed" ]} 5 0) 10
           (start 7 [inl (Status "create-failed")]))
  = Failed "create-failed".
Proof. reflexivity. Qed.

(** Three probes to success. *)
Example Waiter_three_probes :
  run (scripted {[ "active" ]} false {[ "create-failed" ]} 5 100) 10
    (start 0 [inl (Status "pending"); inl (Status "pending");
              inl (Status "active")])
  = mkMachine Succeeded 10 3 [].
Proof. reflexivity. Qed.

(** * Further properties of the handlers *)

(** ** Writing attributes *)

Lemma Set'_conforming (key : string) (ty : ValueType) (v : Value)
    (d : ResourceData) :
  Schema key = Some ty → conforms ty v = true →
  Set' key v d
  = (None, mkResourceData (Id d) (IsNewResource d) (<[key := v]> (attrs d))).
Proof. intros Hkey Hv. unfold Set'. by rewrite Hkey, Hv. Qed.

Lemma conforms_ofStringPtr (p : option string) :
  conforms TypeString (ofStringPtr p) = true.
Proof. by destruct p. Qed.

Lemma conforms_ofBoolPtr (p : option bool) :
  conforms TypeBool (ofBoolPtr p) = true.
Proof. by destruct p. Qed.

(** The five writes of Read, taken together. *)
Lemma Read_writes (customDomain : CustomDomain.t) (serviceArn : string)
    (d : ResourceData) :
  let d1 := (Set' "certificate_validation_records"
               (VList (flattenCustomDomainCertificateValidationRecords
                         (CustomDomain.CertificateValidationRecords customDomain)))
               d).2 in
  let d2 := (Set' "domain_name"
               (ofStringPtr (CustomDomain.DomainName customDomain)) d1).2 in
  let d3 := (Set' "enable_www_subdomain"
               (ofBoolPtr (CustomDomain.EnableWWWSubdomain customDomain)) d2).2 in
  let d4 := (Set' "service_arn" (VString serviceArn) d3).2 in
  (Set' "status" (VString (CustomDomain.Status customDomain)) d4).2
  = mkResourceData (Id d) (IsNewResource d)
      (refreshed customDomain serviceArn (attrs d)).
Proof.
  intros d1 d2 d3 d4. subst d1 d2 d3 d4.
  rewrite (Set'_conforming "certificate_validation_records" TypeSet) by done.
  rewrite (Set'_conforming "domain_name" TypeString)
    by (done || apply conforms_ofStringPtr).
  rewrite (Set'_conforming "enable_www_subdomain" TypeBool)
    by (done || apply conforms_ofBoolPtr).
  rewrite (Set'_conforming "service_arn" TypeString) by done.
  rewrite (Set'_conforming "status" TypeString) by done.
  reflexivity.
Qed.

(** Read, past the decoding and the describe call, on a custom domain. *)
Lemma Read_found {W : Type} (conn : Remote W) (d : ResourceData) (w w1 : W)
    (domainName serviceArn : string) (customDomain : CustomDomain.t)
    (err : option error) :
  CustomDomainAssociationParseID (Id d) = inl (domainName, serviceArn) →
  FindCustomDomain conn domainName serviceArn w = ((Some customDomain, err), w1) →
  negb (IsNewResource d) && IsA_ResourceNotFoundException err = false →
  resourceCustomDomainAssociationRead conn d w
  = Returned []
      (mkResourceData (Id d) (IsNewResource d)
         (refreshed customDomain serviceArn (attrs d)))
      w1.
Proof.
  intros Hid Hfind Hcond. unfold resourceCustomDomainAssociationRead.
  rewrite Hid, Hfind, Hcond.
  pose proof (Read_writes customDomain serviceArn d) as Hw. cbv zeta in Hw.
  revert Hw.
  destruct (Set' "certificate_validation_records" _ d) as [[e|] d1] eqn:Hset.
  - rewrite (Set'_conforming _ TypeSet) in Hset by done. discriminate Hset.
  - cbn [snd]. by intros ->.
Qed.

(** Read, past the decoding and the describe call, without a custom
    domain and without the not-found shortcut. *)
Lemma Read_not_found {W : Type} (conn : Remote W) (d : ResourceData)
    (w w1 : W) (domainName serviceArn : string) (err : option error) :
  CustomDomainAssociationParseID (Id d) = inl (domainName, serviceArn) →
  FindCustomDomain conn domainName serviceArn w = ((None, err), w1) →
  resourceCustomDomainAssociationRead conn d w
  = if IsNewResource d
    then Returned
           (diag.Errorf ("reading App Runner Custom Domain Association ("
                         +:+ Id d +:+ "): empty output after creation"))
           d w1
    else Returned [] (SetId "" d) w1.
Proof.
  intros Hid Hfind. unfold resourceCustomDomainAssociationRead.
  rewrite Hid, Hfind.
  destruct (IsNewResource d); simpl; [done|].
  by destruct (IsA_ResourceNotFoundException err).
Qed.

(** ** Read *)

Lemma refreshed_other (customDomain : CustomDomain.t) (serviceArn key : string)
    (m : gmap string Value) :
  key ∉ readKeys → refreshed customDomain serviceArn m !! key = m !! key.
Proof.
  unfold readKeys. rewrite !not_elem_of_cons. intros (H1 & H2 & H3 & H4 & H5 & _).
  unfold refreshed. by rewrite !lookup_insert_ne.
Qed.

Lemma refreshed_twice (customDomain : CustomDomain.t) (serviceArn : string)
    (m : gmap string Value) :
  refreshed customDomain serviceArn (refreshed customDomain serviceArn m)
  = refreshed customDomain serviceArn m.
Proof.
  apply map_eq. intros key. unfold refreshed.
  destruct (decide (key = "status")) as [->|?]; [by simplify_map_eq|].
  destruct (decide (key = "service_arn")) as [->|?]; [by simplify_map_eq|].
  destruct (decide (key = "enable_www_subdomain")) as [->|?];
    [by simplify_map_eq|].
  destruct (decide (key = "domain_name")) as [->|?]; [by simplify_map_eq|].
  destruct (decide (key = "certificate_validation_records")) as [->|?];
    by simplify_map_eq.
Qed.

(** The four ways Read can end. *)
Lemma Read_cases {W : Type} (conn : Remote W) (d : ResourceData) (w : W) :
  (∃ err, CustomDomainAssociationParseID (Id d) = inr err ∧
          resourceCustomDomainAssociationRead conn d w
          = Returned (diag.FromErr err) d w)
  ∨ (∃ w1, IsNewResource d = false ∧
           resourceCustomDomainAssociationRead conn d w
           = Returned [] (SetId "" d) w1)
  ∨ (∃ w1, IsNewResource d = true ∧
           resourceCustomDomainAssociationRead conn d w
           = Returned
               (diag.Errorf ("reading App Runner Custom Domain Association ("
                             +:+ Id d +:+ "): empty output after creation"))
               d w1)
  ∨ (∃ w1 customDomain domainName serviceArn,
       CustomDomainAssociationParseID (Id d) = inl (domainName, serviceArn) ∧
       resourceCustomDomainAssociationRead conn d w
       = Returned []
           (mkResourceData (Id d) (IsNewResource d)
              (refreshed customDomain serviceArn (attrs d)))
           w1).
Proof.
  destruct (CustomDomainAssociationParseID (Id d)) as [[dn sa]|err] eqn:Hid.
  - destruct (FindCustomDomain conn dn sa w) as [[cd err] w1] eqn:Hfind.
    destruct (negb (IsNewResource d) && IsA_ResourceNotFoundException err)
      eqn:Hcond.
    + right. left. exists w1.
      apply andb_true_iff in Hcond as [Hnew Hnf].
      apply negb_true_iff in Hnew. split; [done|].
      unfold resourceCustomDomainAssociationRead.
      by rewrite Hid, Hfind, Hnew, Hnf.
    + destruct cd as [cd|].
      * do 3 right. exists w1, cd, dn, sa. split; [done|].
        by apply (Read_found conn d w w1 dn sa cd err).
      * rewrite (Read_not_found conn d w w1 dn sa err Hid Hfind).
        destruct (IsNewResource d) eqn:Hnew.
        -- right. right. left. by exists w1.
        -- right. left. by exists w1.
  - left. exists err. split; [done|].
    unfold resourceCustomDomainAssociationRead. by rewrite Hid.
Qed.

(** X1.  When the identifier decodes and the describe call returns a
    custom domain (and the resource is new or the call's error is no
    not-found error), Read returns no diagnostics, keeps the identifier and
    the new-resource mark, and stores the flattened validation records, the
    domain name, the www flag and the status of that custom domain, and as
    service the second field of the identifier; every other attribute
    keeps its value. *)
Theorem Read_refreshes_attributes {W : Type} (conn : Remote W)
    (d : ResourceData) (w w1 : W) (domainName serviceArn : string)
    (customDomain : CustomDomain.t) (err : option error) :
  CustomDomainAssociationParseID (Id d) = inl (domainName, serviceArn) →
  FindCustomDomain conn domainName serviceArn w = ((Some customDomain, err), w1) →
  IsNewResource d = true ∨ IsA_ResourceNotFoundException err = false →
  ∃ d',
    resourceCustomDomainAssociationRead conn d w = Returned [] d' w1 ∧
    Id d' = Id d ∧ IsNewResource d' = IsNewResource d ∧
    attrs d' !! "certificate_validation_records"
      = Some (VList (flattenCustomDomainCertificateValidationRecords
                       (CustomDomain.CertificateValidationRecords customDomain))) ∧
    attrs d' !! "domain_name"
      = Some (ofStringPtr (CustomDomain.DomainName customDomain)) ∧
    attrs d' !! "enable_www_subdomain"
      = Some (ofBoolPtr (CustomDomain.EnableWWWSubdomain customDomain)) ∧
    attrs d' !! "service_arn" = Some (VString serviceArn) ∧
    attrs d' !! "status" = Some (VString (CustomDomain.Status customDomain)) ∧
    ∀ key, key ∉ readKeys → attrs d' !! key = attrs d !! key.
Proof.
  intros Hid Hfind Hcond. eexists. split.
  - apply (Read_found conn d w w1 domainName serviceArn customDomain err);
      [done..|].
    destruct Hcond as [-> | ->]; [done|]. apply andb_false_r.
  - simpl. repeat split; try (unfold refreshed; by simplify_map_eq).
    intros key Hkey. by apply refreshed_other.
Qed.

Lemma Read_refreshes_attributes_witness :
  let d := mkResourceData "example.com,svc-1" false
             {[ "dns_target" := VString "abc.awsapprunner.com" ]} in
  ∃ d',
    resourceCustomDomainAssociationRead inMemoryRemote d
      {[ ("example.com", "svc-1") ]}
    = Returned [] d' {[ ("example.com", "svc-1") ]} ∧
    attrs d' !! "service_arn" = Some (VString "svc-1") ∧
    attrs d' !! "status" = Some (VString "active") ∧
    attrs d' !! "dns_target" = Some (VString "abc.awsapprunner.com").
Proof.
  intros d.
  assert (FindCustomDomain inMemoryRemote "example.com" "svc-1"
            {[ ("example.com", "svc-1") ]}
          = ((Some (inMemoryDomain "example.com"), None),
             {[ ("example.com", "svc-1") ]})) as Hfind
    by (vm_compute; reflexivity).
  destruct (Read_refreshes_attributes inMemoryRemote d
              {[ ("example.com", "svc-1") ]} {[ ("example.com", "svc-1") ]}
              "example.com" "svc-1" (inMemoryDomain "example.com") None
              eq_refl Hfind (or_intror eq_refl))
    as (d' & Hread & _ & _ & _ & _ & _ & Hsvc & Hstatus & Hframe).
  exists d'. repeat split; [exact Hread | exact Hsvc | exact Hstatus |].
  rewrite (Hframe "dns_target"); [reflexivity|].
  unfold readKeys. rewrite !not_elem_of_cons.
  repeat split; try discriminate. apply not_elem_of_nil.
Defined.

(** X2.  However Read ends, it keeps the new-resource mark, it leaves
    every attribute outside the five it refreshes as it was (the DNS target
    among them), and the identifier is either kept or, on a resource that
    is not new and without any diagnostic, cleared. *)
Theorem Read_frame {W : Type} (conn : Remote W) (d d' : ResourceData)
    (w w' : W) (diags : diag.Diagnostics) :
  resourceCustomDomainAssociationRead conn d w = Returned diags d' w' →
  IsNewResource d' = IsNewResource d ∧
  (Id d' = Id d ∨ (Id d' = "" ∧ IsNewResource d = false ∧ diags = [])) ∧
  ∀ key, key ∉ readKeys → attrs d' !! key = attrs d !! key.
Proof.
  intros Hread.
  destruct (Read_cases conn d w)
    as [(err & _ & H) | [(w1 & Hnew & H) | [(w1 & Hnew & H)
        | (w1 & cd & dn & sa & _ & H)]]];
    rewrite H in Hread; injection Hread as <- <- <-; simpl.
  - by eauto.
  - by eauto 6.
  - by eauto.
  - split; [done|]. split; [by left|]. intros key Hkey.
    by apply refreshed_other.
Qed.

(** Reading an association that is gone: the identifier is cleared, the
    DNS target stays. *)
Lemma Read_frame_witness :
  let d := mkResourceData "example.com,svc-1" false
             {[ "dns_target" := VString "abc.awsapprunner.com" ]} in
  let d' := mkResourceData "" false
              {[ "dns_target" := VString "abc.awsapprunner.com" ]} in
  IsNewResource d' = IsNewResource d ∧
  (Id d' = Id d ∨ (Id d' = "" ∧ IsNewResource d = false ∧ @nil diag.Diagnostic = [])) ∧
  attrs d' !! "dns_target" = attrs d !! "dns_target".
Proof.
  intros d d'.
  assert (resourceCustomDomainAssociationRead inMemoryRemote d ∅
          = Returned [] d' ∅) as Hread by (vm_compute; reflexivity).
  destruct (Read_frame inMemoryRemote d d' ∅ ∅ [] Hread)
    as (Hnew & Hid & Hframe).
  split; [exact Hnew|]. split; [exact Hid|].
  apply (Hframe "dns_target").
  unfold readKeys. rewrite !not_elem_of_cons.
  repeat split; try discriminate. apply not_elem_of_nil.
Defined.

(** X3.  When the describe call returns neither a custom domain nor an
    error, Read takes the association for gone: on a resource that is not
    new it clears the identifier and returns no diagnostics; on a new
    resource it returns the error "empty output after creation" and keeps
    the resource data. *)
Theorem Read_empty_output {W : Type} (conn : Remote W) (d : ResourceData)
    (w w1 : W) (domainName serviceArn : string) :
  CustomDomainAssociationParseID (Id d) = inl (domainName, serviceArn) →
  FindCustomDomain conn domainName serviceArn w = ((None, None), w1) →
  resourceCustomDomainAssociationRead conn d w
  = if IsNewResource d
    then Returned
           (diag.Errorf ("reading App Runner Custom Domain Association ("
                         +:+ Id d +:+ "): empty output after creation"))
           d w1
    else Returned [] (SetId "" d) w1.
Proof. intros Hid Hfind. by apply (Read_not_found conn d w w1 domainName serviceArn None). Qed.

Lemma Read_empty_output_witness :
  resourceCustomDomainAssociationRead
    (fixedRemote (None, None) None (None, None) None None)
    (mkResourceData "example.com,svc-1" false
       {[ "status" := VString "active" ]}) 0
  = Returned []
      (mkResourceData "" false {[ "status" := VString "active" ]}) 1.
Proof.
  exact (Read_empty_output
           (fixedRemote (None, None) None (None, None) None None)
           (mkResourceData "example.com,svc-1" false
              {[ "status" := VString "active" ]})
           0 1 "example.com" "svc-1" eq_refl eq_refl).
Defined.

(** X4.  An identifier that does not decode stops Read and Delete before
    any remote call: each returns the decoding error as its one diagnostic
    and leaves the resource data and the remote world untouched. *)
Theorem malformed_identifier_rejected {W : Type} (conn : Remote W)
    (d : ResourceData) (w : W) (err : error) :
  CustomDomainAssociationParseID (Id d) = inr err →
  resourceCustomDomainAssociationRead conn d w
  = Returned (diag.FromErr err) d w ∧
  resourceCustomDomainAssociationDelete conn d w
  = Returned (diag.FromErr err) d w.
Proof.
  intros Hid.
  unfold resourceCustomDomainAssociationRead,
    resourceCustomDomainAssociationDelete.
  by rewrite Hid.
Qed.

Lemma malformed_identifier_rejected_witness :
  let d := mkResourceData "example.com" false ∅ in
  resourceCustomDomainAssociationRead inMemoryRemote d
    {[ ("example.com", "svc-1") ]}
  = Returned (diag.FromErr (MalformedIdentity "example.com")) d
      {[ ("example.com", "svc-1") ]} ∧
  resourceCustomDomainAssociationDelete inMemoryRemote d
    {[ ("example.com", "svc-1") ]}
  = Returned (diag.FromErr (MalformedIdentity "example.com")) d
      {[ ("example.com", "svc-1") ]}.
Proof.
  intros d.
  apply (malformed_identifier_rejected inMemoryRemote d
           {[ ("example.com", "svc-1") ]} (MalformedIdentity "example.com")).
  reflexivity.
Defined.

(** X5.  A Read that returns a diagnostic has changed nothing in the
    resource data, and the diagnostic is one of two: the decoding error
    of the identifier, or, on a new resource, "empty output after
    creation".  In particular the error of writing the validation records
    never occurs. *)
Theorem Read_failure_changes_nothing {W : Type} (conn : Remote W)
    (d d' : ResourceData) (w w' : W) (diags : diag.Diagnostics) :
  resourceCustomDomainAssociationRead conn d w = Returned diags d' w' →
  diags ≠ [] →
  d' = d ∧
  ((∃ err, CustomDomainAssociationParseID (Id d) = inr err ∧
           diags = diag.FromErr err ∧ w' = w)
   ∨ (IsNewResource d = true ∧
      diags = diag.Errorf ("reading App Runner Custom Domain Association ("
                           +:+ Id d +:+ "): empty output after creation"))).
Proof.
  intros Hread Hdiags.
  destruct (Read_cases conn d w)
    as [(err & Herr & H) | [(w1 & Hnew & H) | [(w1 & Hnew & H)
        | (w1 & cd & dn & sa & _ & H)]]];
    rewrite H in Hread; injection Hread as <- <- <-; try done.
  - split; [done|]. left. by exists err.
  - split; [done|]. by right.
Qed.

Lemma Read_failure_changes_nothing_witness :
  let d := mkResourceData "example.com,svc-1" true
             {[ "dns_target" := VString "abc.awsapprunner.com" ]} in
  let diags :=
    diag.Errorf "reading App Runner Custom Domain Association (example.com,svc-1): empty output after creation" in
  d = d ∧
  ((∃ err, CustomDomainAssociationParseID (Id d) = inr err ∧
           diags = diag.FromErr err ∧ (∅ : gset (string * string)) = ∅)
   ∨ (IsNewResource d = true ∧
      diags = diag.Errorf ("reading App Runner Custom Domain Association ("
                           +:+ Id d +:+ "): empty output after creation"))).
Proof.
  intros d diags.
  assert (resourceCustomDomainAssociationRead inMemoryRemote d ∅
          = Returned diags d ∅) as Hread by (vm_compute; reflexivity).
  apply (Read_failure_changes_nothing inMemoryRemote d d ∅ ∅ diags Hread).
  discriminate.
Defined.

(** X6.  Read is idempotent on a settled remote side: after a Read that
    found a custom domain, a second Read that is given the same custom
    domain returns no diagnostics and leaves the resource data exactly as
    the first one left it. *)
Theorem Read_idempotent {W : Type} (conn : Remote W) (d d' : ResourceData)
    (w w1 w2 : W) (domainName serviceArn : string)
    (customDomain : CustomDomain.t) :
  CustomDomainAssociationParseID (Id d) = inl (domainName, serviceArn) →
  FindCustomDomain conn domainName serviceArn w = ((Some customDomain, None), w1) →
  FindCustomDomain conn domainName serviceArn w1 = ((Some customDomain, None), w2) →
  resourceCustomDomainAssociationRead conn d w = Returned [] d' w1 →
  resourceCustomDomainAssociationRead conn d' w1 = Returned [] d' w2.
Proof.
  intros Hid Hfind1 Hfind2 Hread.
  rewrite (Read_found conn d w w1 domainName serviceArn customDomain None)
    in Hread; [|done|done|apply andb_false_r].
  injection Hread as <-.
  rewrite (Read_found conn _ w1 w2 domainName serviceArn customDomain None);
    [|done|done|apply andb_false_r].
  simpl. by rewrite refreshed_twice.
Qed.

Lemma Read_idempotent_witness :
  let d := mkResourceData "example.com,svc-1" false ∅ in
  let d' := mkResourceData "example.com,svc-1" false
              (refreshed (inMemoryDomain "example.com") "svc-1" ∅) in
  resourceCustomDomainAssociationRead inMemoryRemote d'
    {[ ("example.com", "svc-1") ]}
  = Returned [] d' {[ ("example.com", "svc-1") ]}.
Proof.
  intros d d'.
  apply (Read_idempotent inMemoryRemote d d'
           {[ ("example.com", "svc-1") ]} {[ ("example.com", "svc-1") ]}
           {[ ("example.com", "svc-1") ]} "example.com" "svc-1"
           (inMemoryDomain "example.com"));
    vm_compute; reflexivity.
Defined.

(** ** Delete *)

(** Delete, past the decoding, in terms of the two remote answers. *)
Lemma Delete_decoded {W : Type} (conn : Remote W) (d : ResourceData)
    (w w1 : W) (domainName serviceArn : string) (err : option error) :
  CustomDomainAssociationParseID (Id d) = inl (domainName, serviceArn) →
  DisassociateCustomDomain conn (disassociateInput domainName serviceArn) w
  = (err, w1) →
  resourceCustomDomainAssociationDelete conn d w
  = if IsA_ResourceNotFoundException err then Returned [] d w1
    else
      match err with
      | Some e =>
          Returned
            (diag.Errorf ("disassociating App Runner Custom Domain ("
                          +:+ domainName +:+ ") for Service (" +:+ serviceArn
                          +:+ "): " +:+ Error e))
            d w1
      | None =>
          match WaitCustomDomainAssociationDeleted conn domainName serviceArn w1 with
          | (Some e, w2) =>
              if errorsAs_ResourceNotFoundException e
              then Returned [] d w2
              else Returned
                     (diag.Errorf
                        ("waiting for App Runner Custom Domain Association ("
                         +:+ Id d +:+ ") deletion: " +:+ Error e))
                     d w2
          | (None, w2) => Returned [] d w2
          end
      end.
Proof.
  intros Hid Hdis. unfold resourceCustomDomainAssociationDelete.
  rewrite Hid. fold (disassociateInput domainName serviceArn). rewrite Hdis.
  destruct (IsA_ResourceNotFoundException err); [done|].
  destruct err as [e|]; [done|].
  by destruct (WaitCustomDomainAssociationDeleted conn domainName serviceArn w1)
    as [[e|] w2].
Qed.

(** X7.  For an identifier that decodes, Delete returns no diagnostics
    exactly when the disassociate call fails with a not-found error, or it
    succeeds and the wait for the deletion succeeds or fails with a
    not-found error.  In every case the resource data is returned as it
    was given. *)
Theorem Delete_succeeds_iff {W : Type} (conn : Remote W) (d : ResourceData)
    (w w1 w2 : W) (domainName serviceArn : string) (err werr : option error) :
  CustomDomainAssociationParseID (Id d) = inl (domainName, serviceArn) →
  DisassociateCustomDomain conn (disassociateInput domainName serviceArn) w
  = (err, w1) →
  WaitCustomDomainAssociationDeleted conn domainName serviceArn w1 = (werr, w2) →
  ∃ diags w',
    resourceCustomDomainAssociationDelete conn d w = Returned diags d w' ∧
    (diags = [] ↔
       IsA_ResourceNotFoundException err = true ∨
       (err = None ∧
        (werr = None ∨ IsA_ResourceNotFoundException werr = true))).
Proof.
  intros Hid Hdis Hwait.
  rewrite (Delete_decoded conn d w w1 domainName serviceArn err Hid Hdis).
  destruct (IsA_ResourceNotFoundException err) eqn:Hnf.
  - exists [], w1. split; [done|]. split; [by left|done].
  - destruct err as [e|].
    + eexists _, w1. split; [done|]. split; [done|].
      intros [? | [? _]]; done.
    + rewrite Hwait. destruct werr as [e|].
      * simpl. destruct (errorsAs_ResourceNotFoundException e) eqn:He.
        -- exists [], w2. split; [done|]. split; [|done]. intros _. right.
           split; [done|]. by right.
        -- eexists _, w2. split; [done|]. split; [done|].
           intros [? | [_ [? | ?]]]; done.
      * exists [], w2. split; [done|]. split; [|done]. intros _. right.
        split; [done|]. by left.
Qed.

Lemma Delete_succeeds_iff_witness :
  let d := mkResourceData "example.com,svc-1" false ∅ in
  let conn := fixedRemote (None, None) None (None, None) None
                (Some (errorString "timeout while waiting for resource to be gone")) in
  ∃ diags w',
    resourceCustomDomainAssociationDelete conn d 0 = Returned diags d w' ∧
    (diags = [] ↔
       IsA_ResourceNotFoundException None = true ∨
       (@None error = None ∧
        (Some (errorString "timeout while waiting for resource to be gone") = None ∨
         IsA_ResourceNotFoundException
           (Some (errorString "timeout while waiting for resource to be gone"))
         = true))).
Proof.
  intros d conn.
  exact (Delete_succeeds_iff conn d 0 1 2 "example.com" "svc-1" None
           (Some (errorString "timeout while waiting for resource to be gone"))
           eq_refl eq_refl eq_refl).
Defined.

(** X8.  When the disassociate call fails with an error that is no
    not-found error, Delete returns it as its one diagnostic, with the
    domain name and the service of the identifier, and goes no further:
    the remote world is the one the disassociate call left. *)
Theorem Delete_disassociate_error {W : Type} (conn : Remote W)
    (d : ResourceData) (w w1 : W) (domainName serviceArn : string) (e : error) :
  CustomDomainAssociationParseID (Id d) = inl (domainName, serviceArn) →
  DisassociateCustomDomain conn (disassociateInput domainName serviceArn) w
  = (Some e, w1) →
  errorsAs_ResourceNotFoundException e = false →
  resourceCustomDomainAssociationDelete conn d w
  = Returned
      (diag.Errorf ("disassociating App Runner Custom Domain ("
                    +:+ domainName +:+ ") for Service (" +:+ serviceArn
                    +:+ "): " +:+ Error e))
      d w1.
Proof.
  intros Hid Hdis He.
  rewrite (Delete_decoded conn d w w1 domainName serviceArn (Some e) Hid Hdis).
  simpl. by rewrite He.
Qed.

Lemma Delete_disassociate_error_witness :
  let d := mkResourceData "example.com,svc-1" false ∅ in
  resourceCustomDomainAssociationDelete
    (fixedRemote (None, None)
       (Some (InvalidStateException "service is being updated"))
       (None, None) None None)
    d 0
  = Returned
      (diag.Errorf "disassociating App Runner Custom Domain (example.com) for Service (svc-1): InvalidStateException: service is being updated")
      d 1.
Proof.
  intros d.
  exact (Delete_disassociate_error
           (fixedRemote (None, None)
              (Some (InvalidStateException "service is being updated"))
              (None, None) None None)
           d 0 1 "example.com" "svc-1"
           (InvalidStateException "service is being updated")
           eq_refl eq_refl eq_refl).
Defined.

(** X9.  When the disassociate call succeeds and the wait for the deletion
    fails with an error that is no not-found error, Delete returns that
    error as its one diagnostic, with the identifier, and the resource
    data is unchanged. *)
Theorem Delete_wait_error {W : Type} (conn : Remote W) (d : ResourceData)
    (w w1 w2 : W) (domainName serviceArn : string) (e : error) :
  CustomDomainAssociationParseID (Id d) = inl (domainName, serviceArn) →
  DisassociateCustomDomain conn (disassociateInput domainName serviceArn) w
  = (None, w1) →
  WaitCustomDomainAssociationDeleted conn domainName serviceArn w1 = (Some e, w2) →
  errorsAs_ResourceNotFoundException e = false →
  resourceCustomDomainAssociationDelete conn d w
  = Returned
      (diag.Errorf ("waiting for App Runner Custom Domain Association ("
                    +:+ Id d +:+ ") deletion: " +:+ Error e))
      d w2.
Proof.
  intros Hid Hdis Hwait He.
  rewrite (Delete_decoded conn d w w1 domainName serviceArn None Hid Hdis).
  simpl. by rewrite Hwait, He.
Qed.

Lemma Delete_wait_error_witness :
  let d := mkResourceData "example.com,svc-1" false ∅ in
  resourceCustomDomainAssociationDelete
    (fixedRemote (None, None) None (None, None) None
       (Some (errorString "unexpected state 'delete-failed'")))
    d 0
  = Returned
      (diag.Errorf "waiting for App Runner Custom Domain Association (example.com,svc-1) deletion: unexpected state 'delete-failed'")
      d 2.
Proof.
  intros d.
  exact (Delete_wait_error
           (fixedRemote (None, None) None (None, None) None
              (Some (errorString "unexpected state 'delete-failed'")))
           d 0 1 2 "example.com" "svc-1"
           (errorString "unexpected state 'delete-failed'")
           eq_refl eq_refl eq_refl eq_refl).
Defined.

(** ** Create *)

Lemma recorded_IsNewResource (output : AssociateCustomDomainOutput.t)
    (customDomain : CustomDomain.t) (d : ResourceData) :
  IsNewResource (recorded output customDomain d) = IsNewResource d.
Proof. unfold recorded. by rewrite Set'_IsNewResource. Qed.

Lemma recorded_attrs (output : AssociateCustomDomainOutput.t)
    (customDomain : CustomDomain.t) (d : ResourceData) :
  attrs (recorded output customDomain d)
  = <["dns_target" := ofStringPtr (AssociateCustomDomainOutput.DNSTarget output)]>
      (attrs d).
Proof.
  unfold recorded.
  by rewrite (Set'_conforming "dns_target" TypeString)
    by (done || apply conforms_ofStringPtr).
Qed.

(** Create, past a successful associate call. *)
Lemma Create_associated {W : Type} (conn : Remote W) (d : ResourceData)
    (w w1 : W) (output : AssociateCustomDomainOutput.t)
    (customDomain : CustomDomain.t) :
  AssociateCustomDomain conn (associateInput d) w = ((Some output, None), w1) →
  AssociateCustomDomainOutput.CustomDomain output = Some customDomain →
  resourceCustomDomainAssociationCreate conn d w
  = match WaitCustomDomainAssociationCreated conn
            (GetString "domain_name" d) (GetString "service_arn" d) w1 with
    | (Some e, w2) =>
        Returned
          (diag.Errorf ("waiting for App Runner Custom Domain Association ("
                        +:+ Id (recorded output customDomain d)
                        +:+ ") creation: " +:+ Error e))
          (recorded output customDomain d) w2
    | (None, w2) =>
        resourceCustomDomainAssociationRead conn
          (recorded output customDomain d) w2
    end.
Proof.
  intros Hassoc Hcd. unfold resourceCustomDomainAssociationCreate.
  fold (associateInput d). rewrite Hassoc, Hcd.
  fold (recorded output customDomain d).
  by destruct (WaitCustomDomainAssociationCreated conn _ _ w1) as [[e|] w2].
Qed.

(** X10.  When the associate call returns neither an output nor an error,
    Create returns the error "empty output" and leaves the resource data as
    it found it: no identifier, no DNS target. *)
Theorem Create_empty_output {W : Type} (conn : Remote W) (d : ResourceData)
    (w w1 : W) :
  AssociateCustomDomain conn (associateInput d) w = ((None, None), w1) →
  resourceCustomDomainAssociationCreate conn d w
  = Returned
      (diag.Errorf ("associating App Runner Custom Domain ("
                    +:+ GetString "domain_name" d +:+ ") for Service ("
                    +:+ GetString "service_arn" d +:+ "): empty output"))
      d w1.
Proof.
  intros Hassoc. unfold resourceCustomDomainAssociationCreate.
  fold (associateInput d). by rewrite Hassoc.
Qed.

Lemma Create_empty_output_witness :
  let d := mkResourceData "" true
             {[ "domain_name" := VString "example.com";
                "service_arn" := VString "svc-1" ]} in
  resourceCustomDomainAssociationCreate
    (fixedRemote (None, None) None (None, None) None None) d 0
  = Returned
      (diag.Errorf "associating App Runner Custom Domain (example.com) for Service (svc-1): empty output")
      d 1.
Proof.
  intros d.
  exact (Create_empty_output
           (fixedRemote (None, None) None (None, None) None None) d 0 1
           eq_refl).
Defined.

(** X11.  Create panics in one situation only: the associate call
    succeeds with an output whose custom domain is nil.  In every other
    situation it returns. *)
Theorem Create_Panic_iff {W : Type} (conn : Remote W) (d : ResourceData)
    (w : W) :
  resourceCustomDomainAssociationCreate conn d w = Panic ↔
  ∃ output w1,
    AssociateCustomDomain conn (associateInput d) w = ((Some output, None), w1) ∧
    AssociateCustomDomainOutput.CustomDomain output = None.
Proof.
  split.
  - unfold resourceCustomDomainAssociationCreate. fold (associateInput d).
    destruct (AssociateCustomDomain conn (associateInput d) w)
      as [[[output|] [e|]] w1]; try done.
    destruct (AssociateCustomDomainOutput.CustomDomain output) as [cd|] eqn:Hcd;
      [|by eauto].
    fold (recorded output cd d).
    destruct (WaitCustomDomainAssociationCreated conn _ _ w1) as [[e|] w2];
      [done|].
    destruct (Read_returns conn (recorded output cd d) w2)
      as (diags & d' & w' & -> & _).
    done.
  - intros (output & w1 & Hassoc & Hcd).
    unfold resourceCustomDomainAssociationCreate. fold (associateInput d).
    by rewrite Hassoc, Hcd.
Qed.

(** X12.  On a new resource, when the associate call and the wait succeed
    but the describe call of the read-back returns no custom domain, Create
    returns the error "empty output after creation", and what was recorded
    stays: the identifier built from the response and the DNS target. *)
Theorem Create_read_back_empty {W : Type} (conn : Remote W)
    (d : ResourceData) (w w1 w2 w3 : W)
    (output : AssociateCustomDomainOutput.t) (customDomain : CustomDomain.t)
    (domainName serviceArn : string) (err : option error) :
  IsNewResource d = true →
  AssociateCustomDomain conn (associateInput d) w = ((Some output, None), w1) →
  AssociateCustomDomainOutput.CustomDomain output = Some customDomain →
  WaitCustomDomainAssociationCreated conn
    (GetString "domain_name" d) (GetString "service_arn" d) w1 = (None, w2) →
  CustomDomainAssociationParseID
    (Encode (ToString (CustomDomain.DomainName customDomain))
            (ToString (AssociateCustomDomainOutput.ServiceArn output)))
  = inl (domainName, serviceArn) →
  FindCustomDomain conn domainName serviceArn w2 = ((None, err), w3) →
  let d' := recorded output customDomain d in
  resourceCustomDomainAssociationCreate conn d w
  = Returned
      (diag.Errorf ("reading App Runner Custom Domain Association ("
                    +:+ Id d' +:+ "): empty output after creation"))
      d' w3
  ∧ Id d' = Encode (ToString (CustomDomain.DomainName customDomain))
                   (ToString (AssociateCustomDomainOutput.ServiceArn output))
  ∧ attrs d' !! "dns_target"
    = Some (ofStringPtr (AssociateCustomDomainOutput.DNSTarget output)).
Proof.
  intros Hnew Hassoc Hcd Hwait Hid Hfind d'. subst d'.
  split; [|split; [apply recorded_Id | apply recorded_dns_target]].
  rewrite (Create_associated conn d w w1 output customDomain Hassoc Hcd), Hwait.
  rewrite (Read_not_found conn _ w2 w3 domainName serviceArn err).
  - by rewrite recorded_IsNewResource, Hnew.
  - by rewrite recorded_Id.
  - done.
Qed.

Lemma Create_read_back_empty_witness :
  let d := mkResourceData "" true
             {[ "domain_name" := VString "example.com";
                "service_arn" := VString "svc-1" ]} in
  let output := AssociateCustomDomainOutput.mk
                  (Some (inMemoryDomain "example.com"))
                  (Some "abc.awsapprunner.com") (Some "svc-1") in
  let conn := fixedRemote (Some output, None) None (None, None) None None in
  ∃ d',
    resourceCustomDomainAssociationCreate conn d 0
    = Returned
        (diag.Errorf "reading App Runner Custom Domain Association (example.com,svc-1): empty output after creation")
        d' 3
    ∧ Id d' = "example.com,svc-1"
    ∧ attrs d' !! "dns_target" = Some (VString "abc.awsapprunner.com").
Proof.
  intros d output conn.
  exists (recorded output (inMemoryDomain "example.com") d).
  exact (Create_read_back_empty conn d 0 1 2 3 output
           (inMemoryDomain "example.com") "example.com" "svc-1" None
           eq_refl eq_refl eq_refl eq_refl eq_refl eq_refl).
Defined.

Lemma Create_Panic_iff_witness :
  resourceCustomDomainAssociationCreate
    (fixedRemote (Some (AssociateCustomDomainOutput.mk None None None), None)
       None (None, None) None None)
    (mkResourceData "" true ∅) 0
  = Panic.
Proof.
  apply (proj2 (Create_Panic_iff
                  (fixedRemote
                     (Some (AssociateCustomDomainOutput.mk None None None), None)
                     None (None, None) None None)
                  (mkResourceData "" true ∅) 0)).
  exists (AssociateCustomDomainOutput.mk None None None), 1.
  split; reflexivity.
Defined.

(** X13.  On a new resource, when the associate call and the wait succeed,
    the recorded identifier decodes and the describe call of the read-back
    returns a custom domain, Create returns no diagnostics.  The resource
    data then holds the identifier built from the associate response, the
    DNS target of that response, and the attributes Read stores from the
    described custom domain, with the service taken from the identifier. *)
Theorem Create_success {W : Type} (conn : Remote W)
    (d : ResourceData) (w w1 w2 w3 : W)
    (output : AssociateCustomDomainOutput.t)
    (customDomain described : CustomDomain.t)
    (domainName serviceArn : string) (err : option error) :
  IsNewResource d = true →
  AssociateCustomDomain conn (associateInput d) w = ((Some output, None), w1) →
  AssociateCustomDomainOutput.CustomDomain output = Some customDomain →
  WaitCustomDomainAssociationCreated conn
    (GetString "domain_name" d) (GetString "service_arn" d) w1 = (None, w2) →
  CustomDomainAssociationParseID
    (Encode (ToString (CustomDomain.DomainName customDomain))
            (ToString (AssociateCustomDomainOutput.ServiceArn output)))
  = inl (domainName, serviceArn) →
  FindCustomDomain conn domainName serviceArn w2 = ((Some described, err), w3) →
  resourceCustomDomainAssociationCreate conn d w
  = Returned []
      (mkResourceData
         (Encode (ToString (CustomDomain.DomainName customDomain))
                 (ToString (AssociateCustomDomainOutput.ServiceArn output)))
         true
         (refreshed described serviceArn
            (<["dns_target" :=
                 ofStringPtr (AssociateCustomDomainOutput.DNSTarget output)]>
               (attrs d))))
      w3.
Proof.
  intros Hnew Hassoc Hcd Hwait Hid Hfind.
  rewrite (Create_associated conn d w w1 output customDomain Hassoc Hcd), Hwait.
  rewrite (Read_found conn _ w2 w3 domainName serviceArn described err).
  - by rewrite recorded_Id, recorded_IsNewResource, recorded_attrs, Hnew.
  - by rewrite recorded_Id.
  - done.
  - by rewrite recorded_IsNewResource, Hnew.
Qed.

Lemma Create_success_witness :
  let d := mkResourceData "" true
             {[ "domain_name" := VString "example.com";
                "service_arn" := VString "svc-1" ]} in
  let output := AssociateCustomDomainOutput.mk
                  (Some (inMemoryDomain "example.com"))
                  (Some "abc.awsapprunner.com") (Some "svc-1") in
  resourceCustomDomainAssociationCreate inMemoryRemote d ∅
  = Returned []
      (mkResourceData
         (Encode (ToString (CustomDomain.DomainName (inMemoryDomain "example.com")))
                 (ToString (AssociateCustomDomainOutput.ServiceArn output)))
         true
         (refreshed (inMemoryDomain "example.com") "svc-1"
            (<["dns_target" :=
                 ofStringPtr (AssociateCustomDomainOutput.DNSTarget output)]>
               (attrs d))))
      {[ ("example.com", "svc-1") ]}.
Proof.
  intros d output.
  apply (Create_success inMemoryRemote d
           ∅ {[ ("example.com", "svc-1") ]} {[ ("example.com", "svc-1") ]}
           {[ ("example.com", "svc-1") ]}
           output (inMemoryDomain "example.com") (inMemoryDomain "example.com")
           "example.com" "svc-1" None);
    vm_compute; reflexivity.
Defined.

(** X14.  When the associate call and the wait succeed but the identifier
    built from the response does not decode, Create returns the decoding
    error without a describe call, and the identifier and the DNS target
    stay recorded. *)
Theorem Create_undecodable_identifier {W : Type} (conn : Remote W)
    (d : ResourceData) (w w1 w2 : W)
    (output : AssociateCustomDomainOutput.t) (customDomain : CustomDomain.t)
    (err : error) :
  AssociateCustomDomain conn (associateInput d) w = ((Some output, None), w1) →
  AssociateCustomDomainOutput.CustomDomain output = Some customDomain →
  WaitCustomDomainAssociationCreated conn
    (GetString "domain_name" d) (GetString "service_arn" d) w1 = (None, w2) →
  CustomDomainAssociationParseID
    (Encode (ToString (CustomDomain.DomainName customDomain))
            (ToString (AssociateCustomDomainOutput.ServiceArn output)))
  = inr err →
  resourceCustomDomainAssociationCreate conn d w
  = Returned (diag.FromErr err) (recorded output customDomain d) w2.
Proof.
  intros Hassoc Hcd Hwait Hid.
  rewrite (Create_associated conn d w w1 output customDomain Hassoc Hcd), Hwait.
  unfold resourceCustomDomainAssociationRead.
  by rewrite recorded_Id, Hid.
Qed.

(** A response without the service: the identifier ends in the delimiter. *)
Lemma Create_undecodable_identifier_witness :
  let d := mkResourceData "" true
             {[ "domain_name" := VString "example.com";
                "service_arn" := VString "svc-1" ]} in
  let output := AssociateCustomDomainOutput.mk
                  (Some (inMemoryDomain "example.com"))
                  (Some "abc.awsapprunner.com") None in
  resourceCustomDomainAssociationCreate
    (fixedRemote (Some output, None) None (None, None) None None) d 0
  = Returned (diag.FromErr (MalformedIdentity "example.com,"))
      (recorded output (inMemoryDomain "example.com") d) 2.
Proof.
  intros d output.
  exact (Create_undecodable_identifier
           (fixedRemote (Some output, None) None (None, None) None None)
           d 0 1 2 output (inMemoryDomain "example.com")
           (MalformedIdentity "example.com,")
           eq_refl eq_refl eq_refl eq_refl).
Defined.

(** What a Create without diagnostics on a new resource went through. *)
Lemma Create_without_diagnostics {W : Type} (conn : Remote W)
    (d d' : ResourceData) (w w' : W) :
  IsNewResource d = true →
  resourceCustomDomainAssociationCreate conn d w = Returned [] d' w' →
  ∃ output customDomain w1 w2 domainName serviceArn described err,
    AssociateCustomDomain conn (associateInput d) w = ((Some output, None), w1) ∧
    AssociateCustomDomainOutput.CustomDomain output = Some customDomain ∧
    WaitCustomDomainAssociationCreated conn
      (GetString "domain_name" d) (GetString "service_arn" d) w1 = (None, w2) ∧
    CustomDomainAssociationParseID (Id (recorded output customDomain d))
    = inl (domainName, serviceArn) ∧
    FindCustomDomain conn domainName serviceArn w2 = ((Some described, err), w') ∧
    d' = mkResourceData (Id (recorded output customDomain d)) true
           (refreshed described serviceArn
              (attrs (recorded output customDomain d))).
Proof.
  intros Hnew Hcreate.
  destruct (AssociateCustomDomain conn (associateInput d) w)
    as [[[output|] [e|]] w1] eqn:Hassoc;
    try (unfold resourceCustomDomainAssociationCreate in Hcreate;
         fold (associateInput d) in Hcreate; rewrite Hassoc in Hcreate;
         discriminate Hcreate).
  destruct (AssociateCustomDomainOutput.CustomDomain output) as [cd|] eqn:Hcd.
  2:{ unfold resourceCustomDomainAssociationCreate in Hcreate.
      fold (associateInput d) in Hcreate.
      rewrite Hassoc, Hcd in Hcreate. discriminate Hcreate. }
  rewrite (Create_associated conn d w w1 output cd Hassoc Hcd) in Hcreate.
  destruct (WaitCustomDomainAssociationCreated conn _ _ w1) as [[e|] w2] eqn:Hwait;
    [discriminate Hcreate|].
  set (r := recorded output cd d) in *.
  assert (IsNewResource r = true) as Hrnew
    by (unfold r; by rewrite recorded_IsNewResource).
  destruct (CustomDomainAssociationParseID (Id r)) as [[dn sa]|perr] eqn:Hid.
  2:{ unfold resourceCustomDomainAssociationRead in Hcreate.
      rewrite Hid in Hcreate. discriminate Hcreate. }
  destruct (FindCustomDomain conn dn sa w2) as [[[described|] err] w3] eqn:Hfind.
  - rewrite (Read_found conn r w2 w3 dn sa described err Hid Hfind) in Hcreate
      by (by rewrite Hrnew).
    injection Hcreate as <- <-. rewrite Hrnew.
    by exists output, cd, w1, w2, dn, sa, described, err.
  - rewrite (Read_not_found conn r w2 w3 dn sa err Hid Hfind), Hrnew in Hcreate.
    discriminate Hcreate.
Qed.

(** X15.  On a new resource, Create returns no diagnostics only if every
    step went through: the associate call returned an output with its
    custom domain and no error, the wait returned no error, the recorded
    identifier decoded, and the describe call returned a custom domain.
    The resource data is then the one of that run. *)
Theorem Create_success_only_if {W : Type} (conn : Remote W)
    (d d' : ResourceData) (w w' : W) :
  IsNewResource d = true →
  resourceCustomDomainAssociationCreate conn d w = Returned [] d' w' →
  ∃ output customDomain w1 w2 domainName serviceArn described err,
    AssociateCustomDomain conn (associateInput d) w = ((Some output, None), w1) ∧
    AssociateCustomDomainOutput.CustomDomain output = Some customDomain ∧
    WaitCustomDomainAssociationCreated conn
      (GetString "domain_name" d) (GetString "service_arn" d) w1 = (None, w2) ∧
    CustomDomainAssociationParseID (Id (recorded output customDomain d))
    = inl (domainName, serviceArn) ∧
    FindCustomDomain conn domainName serviceArn w2 = ((Some described, err), w') ∧
    d' = mkResourceData (Id (recorded output customDomain d)) true
           (refreshed described serviceArn
              (attrs (recorded output customDomain d))).
Proof. apply Create_without_diagnostics. Qed.

Lemma Create_success_only_if_witness :
  let d := mkResourceData "" true
             {[ "domain_name" := VString "example.com";
                "service_arn" := VString "svc-1" ]} in
  let d' := mkResourceData "example.com,svc-1" true
              (refreshed (inMemoryDomain "example.com") "svc-1"
                 (<["dns_target" := VString "abc.awsapprunner.com"]>
                    {[ "domain_name" := VString "example.com";
                       "service_arn" := VString "svc-1" ]})) in
  ∃ output customDomain w1 w2,
    AssociateCustomDomain inMemoryRemote (associateInput d) ∅
    = ((Some output, None), w1) ∧
    AssociateCustomDomainOutput.CustomDomain output = Some customDomain ∧
    WaitCustomDomainAssociationCreated inMemoryRemote
      (GetString "domain_name" d) (GetString "service_arn" d) w1 = (None, w2).
Proof.
  intros d d'.
  assert (resourceCustomDomainAssociationCreate inMemoryRemote d ∅
          = Returned [] d' {[ ("example.com", "svc-1") ]}) as Hcreate
    by (vm_compute; reflexivity).
  destruct (Create_success_only_if inMemoryRemote d d' ∅
              {[ ("example.com", "svc-1") ]} eq_refl Hcreate)
    as (output & cd & w1 & w2 & _ & _ & _ & _ & Hassoc & Hcd & Hwait & _).
  by exists output, cd, w1, w2.
Defined.

(** ** Import *)

(** X16.  Importing an identifier and reading it: when the identifier
    decodes and the describe call returns a custom domain, the Read that
    follows the pass-through import returns no diagnostics and fills
    exactly the five attributes it refreshes, the service being the second
    field of the identifier; the DNS target stays unset. *)
Theorem import_then_Read {W : Type} (conn : Remote W) (id : string)
    (w w1 : W) (domainName serviceArn : string) (customDomain : CustomDomain.t) :
  CustomDomainAssociationParseID id = inl (domainName, serviceArn) →
  FindCustomDomain conn domainName serviceArn w = ((Some customDomain, None), w1) →
  Forall
    (fun d =>
       ∃ d', resourceCustomDomainAssociationRead conn d w = Returned [] d' w1 ∧
             Id d' = id ∧
             dom (attrs d') = (list_to_set readKeys : gset string) ∧
             attrs d' !! "service_arn" = Some (VString serviceArn) ∧
             attrs d' !! "dns_target" = None)
    (resource.ImportStatePassthroughContext (mkResourceData id false ∅)).
Proof.
  intros Hid Hfind. unfold resource.ImportStatePassthroughContext.
  constructor; [|constructor].
  eexists. split.
  - by apply (Read_found conn _ w w1 domainName serviceArn customDomain None).
  - simpl. split; [done|]. split; [|split].
    + unfold refreshed, readKeys. rewrite !dom_insert_L, dom_empty_L.
      simpl. set_solver.
    + unfold refreshed. by simplify_map_eq.
    + unfold refreshed. by simplify_map_eq.
Qed.

Lemma import_then_Read_witness :
  Forall
    (fun d =>
       ∃ d', resourceCustomDomainAssociationRead inMemoryRemote d
               {[ ("example.com", "svc-1") ]}
             = Returned [] d' {[ ("example.com", "svc-1") ]} ∧
             Id d' = "example.com,svc-1" ∧
             dom (attrs d') = (list_to_set readKeys : gset string) ∧
             attrs d' !! "service_arn" = Some (VString "svc-1") ∧
             attrs d' !! "dns_target" = None)
    (resource.ImportStatePassthroughContext
       (mkResourceData "example.com,svc-1" false ∅)).
Proof.
  apply (import_then_Read inMemoryRemote "example.com,svc-1"
           {[ ("example.com", "svc-1") ]} {[ ("example.com", "svc-1") ]}
           "example.com" "svc-1" (inMemoryDomain "example.com"));
    vm_compute; reflexivity.
Defined.

(** ** The flattened validation records, continued *)

(** X17.  Flattening distributes over concatenation: the records of two
    lists, flattened, are the flattened first list followed by the
    flattened second one. *)
Theorem flatten_app (records1 records2 : list CertificateValidationRecord.t) :
  flattenCustomDomainCertificateValidationRecords (records1 ++ records2)
  = flattenCustomDomainCertificateValidationRecords records1
    ++ flattenCustomDomainCertificateValidationRecords records2.
Proof. rewrite !flatten_fmap. apply fmap_app. Qed.

Lemma flattenRecord_inj (r r' : CertificateValidationRecord.t) :
  allSet r = true → allSet r' = true →
  flattenRecord r = flattenRecord r' → r = r'.
Proof.
  destruct r as [[n|] s [t|] [v|]], r' as [[n'|] s' [t'|] [v'|]];
    try done.
  intros _ _ Heq. unfold flattenRecord in Heq. simpl in Heq.
  pose proof (f_equal (.!! "name") Heq) as Hn.
  pose proof (f_equal (.!! "status") Heq) as Hs.
  pose proof (f_equal (.!! "type") Heq) as Ht.
  pose proof (f_equal (.!! "value") Heq) as Hv.
  simplify_map_eq. done.
Qed.

(** X18.  On records none of whose name, type and value is nil,
    flattening loses nothing: two lists of such records that flatten to
    the same list are the same list. *)
Theorem flatten_injective (records records' : list CertificateValidationRecord.t) :
  Forall (fun r => allSet r = true) records →
  Forall (fun r => allSet r = true) records' →
  flattenCustomDomainCertificateValidationRecords records
  = flattenCustomDomainCertificateValidationRecords records' →
  records = records'.
Proof.
  rewrite !flatten_fmap. intros Hall. revert records'.
  induction Hall as [|r records Hr Hall IH]; intros records' Hall' Heq.
  - destruct records'; [done|]. discriminate Heq.
  - destruct Hall' as [|r' records' Hr' Hall']; [discriminate Heq|].
    rewrite !fmap_cons in Heq.
    assert (flattenRecord r = flattenRecord r') as Hhead
      by (apply (inj Some); exact (f_equal head Heq)).
    pose proof (f_equal tail Heq) as Htail. simpl in Htail.
    f_equal; [by apply flattenRecord_inj | by apply IH].
Qed.

Lemma flatten_injective_witness :
  let r := CertificateValidationRecord.mk
             (Some "_a.example.com") "PENDING_VALIDATION"
             (Some "CNAME") (Some "_x.acm-validations.aws") in
  [r] = [r].
Proof.
  intros r.
  apply (flatten_injective [r] [r]); [repeat constructor..|reflexivity].
Defined.

(** A nil pointer and an empty string flatten alike: without the
    restriction the mapping is not injective. *)
Example flatten_nil_pointer :
  flattenCustomDomainCertificateValidationRecords
    [CertificateValidationRecord.mk None "SUCCESS" (Some "CNAME") (Some "v")]
  = flattenCustomDomainCertificateValidationRecords
      [CertificateValidationRecord.mk (Some "") "SUCCESS" (Some "CNAME") (Some "v")].
Proof. reflexivity. Qed.

(** ** The schema *)


(** X20.  The resource declares no update, and its schema allows none:
    every attribute the configuration can set forces a new resource, and
    every other attribute is computed.  The declared types are the ones
    [d.Set] is checked against. *)
Theorem schema_needs_no_update (key : string) (a : resource.Attribute) :
  resource.lookup key resource.attributes = Some a →
  resource.hasUpdate resource.operations = false ∧
  Schema key = Some (resource.Type' a) ∧
  (if resource.configurable a
   then resource.ForceNew a = true ∧ resource.Computed a = false
   else resource.Computed a = true ∧ resource.ForceNew a = false).
Proof.
  unfold resource.attributes, Schema. simpl.
  repeat (destruct (String.eqb key _); [by intros [= <-]|]).
  done.
Qed.

Lemma schema_needs_no_update_witness :
  resource.hasUpdate resource.operations = false ∧
  Schema "enable_www_subdomain" = Some TypeBool ∧
  (true = true ∧ false = false).
Proof.
  exact (schema_needs_no_update "enable_www_subdomain"
           (resource.mkAttribute TypeBool false true false true
              (Some (VBool true)) [])
           eq_refl).
Defined.

(** X21.  The keys of every flattened validation record are exactly the
    attributes the schema declares for the elements of
    [certificate_validation_records]. *)
Theorem flatten_keys_match_schema (record : CertificateValidationRecord.t)
    (a : resource.Attribute) :
  resource.lookup "certificate_validation_records" resource.attributes = Some a →
  dom (flattenRecord record)
  = (list_to_set (resource.Elem a).*1 : gset string)
  ∧ Forall (fun e => e.2 = TypeString) (resource.Elem a).
Proof.
  intros [= <-]. split.
  - unfold flattenRecord. rewrite !dom_insert_L, dom_empty_L. simpl.
    set_solver.
  - simpl. repeat constructor.
Qed.

Lemma flatten_keys_match_schema_witness :
  dom (flattenRecord
         (CertificateValidationRecord.mk None "SUCCESS" (Some "CNAME") None))
  = ({[ "name"; "status"; "type"; "value" ]} : gset string).
Proof.
  destruct (flatten_keys_match_schema
              (CertificateValidationRecord.mk None "SUCCESS" (Some "CNAME") None)
              (resource.mkAttribute TypeSet false false true false None
                 [ ("name", TypeString); ("status", TypeString);
                   ("type", TypeString); ("value", TypeString) ])
              eq_refl) as [Hdom _].
  rewrite Hdom. simpl. set_solver.
Defined.

(** ** Create, then Delete *)

(** X22.  What Create set up, Delete can take down: after a Create on a
    new resource that returned no diagnostics, the identifier decodes, its
    second field is the service stored in the resource data, and a Delete
    whose disassociate call and wait succeed for the decoded fields
    returns no diagnostics. *)
Theorem Create_then_Delete {W : Type} (conn : Remote W)
    (d d' : ResourceData) (w w' : W) :
  IsNewResource d = true →
  resourceCustomDomainAssociationCreate conn d w = Returned [] d' w' →
  ∃ domainName serviceArn,
    CustomDomainAssociationParseID (Id d') = inl (domainName, serviceArn) ∧
    attrs d' !! "service_arn" = Some (VString serviceArn) ∧
    ∀ w0 w1 w2,
      DisassociateCustomDomain conn (disassociateInput domainName serviceArn) w0
      = (None, w1) →
      WaitCustomDomainAssociationDeleted conn domainName serviceArn w1
      = (None, w2) →
      resourceCustomDomainAssociationDelete conn d' w0 = Returned [] d' w2.
Proof.
  intros Hnew Hcreate.
  destruct (Create_without_diagnostics conn d d' w w' Hnew Hcreate)
    as (output & cd & w1 & w2 & dn & sa & described & err
        & _ & _ & _ & Hid & _ & ->).
  exists dn, sa. split; [exact Hid|]. split.
  - simpl. unfold refreshed. by simplify_map_eq.
  - intros w0 w3 w4 Hdis Hwait.
    erewrite Delete_decoded; [|exact Hid|exact Hdis].
    simpl. by rewrite Hwait.
Qed.

Lemma Create_then_Delete_witness :
  let d := mkResourceData "" true
             {[ "domain_name" := VString "example.com";
                "service_arn" := VString "svc-1" ]} in
  let d' := mkResourceData "example.com,svc-1" true
              (refreshed (inMemoryDomain "example.com") "svc-1"
                 (<["dns_target" := VString "abc.awsapprunner.com"]>
                    {[ "domain_name" := VString "example.com";
                       "service_arn" := VString "svc-1" ]})) in
  resourceCustomDomainAssociationDelete inMemoryRemote d'
    {[ ("example.com", "svc-1") ]}
  = Returned [] d' ∅.
Proof.
  intros d d'.
  assert (resourceCustomDomainAssociationCreate inMemoryRemote d ∅
          = Returned [] d' {[ ("example.com", "svc-1") ]}) as Hcreate
    by (vm_compute; reflexivity).
  destruct (Create_then_Delete inMemoryRemote d d' ∅
              {[ ("example.com", "svc-1") ]} eq_refl Hcreate)
    as (dn & sa & Hid & _ & Hdelete).
  assert (dn = "example.com" ∧ sa = "svc-1") as [-> ->]
    by (vm_compute in Hid; by injection Hid as <- <-).
  apply (Hdelete {[ ("example.com", "svc-1") ]} ∅ ∅);
    vm_compute; reflexivity.
Defined.
